(** * Sharp printer SMTP configurator: a shallow embedding of
      [scripts/configure_printer.py] and the properties of its workflow.

    The script drives a browser through Selenium.  The browser, the clock
    and the YAML parser are external collaborators: they are an interface
    ([Platform]) whose operations may return a value or raise, and may
    change the outside world.  The methods of [SharpPrinterConfigurator]
    are computations in a state-and-exception monad that records every
    observable action (prints, sleeps, calls to the browser) in a trace.

    Conventions of the model:
    - text is a Rocq [string]; [str.lower()] acts on the letters A..Z;
    - the loaded configuration is a dict of sections, each a dict of
      scalars (strings, integers, booleans); a missing key raises KeyError;
    - [exit(code)] raises [SystemExit], which [except Exception] does not
      catch and [finally] does not stop;
    - [print] and [time.sleep] do not raise. *)

From Stdlib Require Import Ascii.
From stdpp Require Import base option list gmap strings pretty.

Local Open Scope Z_scope.

(** ** Python values, strings and exceptions *)

(** Text is modelled as Rocq strings (sequences of 8-bit characters). *)

(** [str.lower()]: the letters A..Z are mapped to a..z. *)
Definition lower_ascii (c : ascii) : ascii :=
  let n := nat_of_ascii c in
  if (Nat.leb 65 n && Nat.leb n 90)%bool then ascii_of_nat (n + 32) else c.

Fixpoint lower (s : string) : string :=
  match s with
  | EmptyString => EmptyString
  | String c s' => String (lower_ascii c) (lower s')
  end.

(** [needle in s] on strings: substring test. *)
Fixpoint contains (needle s : string) : bool :=
  if String.prefix needle s then true
  else match s with
       | EmptyString => false
       | String _ s' => contains needle s'
       end.

(** [c * n]: a string repeated. *)
Fixpoint string_mul (c : string) (n : nat) : string :=
  match n with
  | O => EmptyString
  | S n' => c +:+ string_mul c n'
  end.

Definition nl : string := String (ascii_of_nat 10) EmptyString.

(** Scalar values found at the leaves of the YAML configuration. *)
Inductive pyval :=
| VStr (s : string)
| VInt (z : Z)
| VBool (b : bool).

(** [str(v)] and the formatting of [v] inside an f-string. *)
Definition py_str (v : pyval) : string :=
  match v with
  | VStr s => s
  | VInt z => pretty z
  | VBool true => "True"
  | VBool false => "False"
  end.

(** Truth value of a configuration scalar. *)
Definition py_bool (v : pyval) : bool :=
  match v with
  | VStr s => negb (String.eqb s "")
  | VInt z => negb (z =? 0)
  | VBool b => b
  end.

Inductive exn_class :=
| FileNotFoundError
| IsADirectoryError
| FileExistsError
| KeyError
| TypeError
| AttributeError
| WebDriverException
| OtherException.

(** An exception object: every class above derives from [Exception]. *)
Record exn := Exn { exn_cls : exn_class; exn_msg : string }.

Definition is_FileNotFoundError (e : exn) : bool :=
  match exn_cls e with FileNotFoundError => true | _ => false end.

(** How a call ends: a value, a raised [Exception], or [SystemExit]
    (raised by [exit(code)], which [except Exception] does not catch). *)
Inductive outcome (A : Type) :=
| Ret (a : A)
| Raise (e : exn)
| SystemExit (code : Z).
Arguments Ret {A} a.
Arguments Raise {A} e.
Arguments SystemExit {A} code.

(** How a call to a library ends: it returns a value or raises an
    [Exception]. *)
Inductive reply (A : Type) :=
| Returns (a : A)
| Raises (e : exn).
Arguments Returns {A} a.
Arguments Raises {A} e.

(** [len(v)]: only strings have a length. *)
Definition py_len (v : pyval) : reply nat :=
  match v with
  | VStr s => Returns (String.length s)
  | VInt _ => Raises (Exn TypeError "object of type 'int' has no len()")
  | VBool _ => Raises (Exn TypeError "object of type 'bool' has no len()")
  end.

(** The loaded configuration: sections of scalar settings. *)
Abbreviation Config := (gmap string (gmap string pyval)).

Inductive by_ := CSS_SELECTOR | TAG_NAME.

Inductive fs_node :=
| FFile (content : string)
| FDir.

(** ** The external collaborators *)

(** [W] is the state of the outside world (browser, page, clock),
    [handle] a WebDriver session, [elem] a WebElement.  Every operation of
    the browser may raise and may change the world. *)
Class Platform (W handle elem : Type) := {
  (* webdriver.Chrome(options=...) *)
  chrome : list string → W → reply handle * W;
  implicitly_wait : handle → pyval → W → reply unit * W;
  driver_get : handle → pyval → W → reply unit * W;
  (* WebDriverWait(driver, t).until(EC.presence_of_element_located(loc)) *)
  wait_presence : handle → Z → by_ * string → W → reply elem * W;
  find_element : handle → by_ * string → W → reply elem * W;
  find_elements : handle → by_ * string → W → reply (list elem) * W;
  save_screenshot : handle → string → W → reply bool * W;
  driver_quit : handle → W → reply unit * W;
  elem_clear : elem → W → reply unit * W;
  elem_send_keys : elem → pyval → W → reply unit * W;
  elem_click : elem → W → reply unit * W;
  elem_text : elem → W → reply string * W;
  elem_get_attribute : elem → string → W → reply (option string) * W;
  (* Select(e) and Select(e).select_by_value(v) *)
  select_new : elem → W → reply unit * W;
  select_by_value : elem → pyval → W → reply unit * W;
  (* datetime.now().strftime("%Y%m%d_%H%M%S") *)
  now_stamp : W → string;
  (* time.sleep(secs) *)
  time_sleep : Z → W → W;
  (* yaml.safe_load on the text of a file *)
  yaml_safe_load : string → reply Config;
}.

(** ** A concrete platform

    A small scripted browser, used to run the model on concrete pages:
    the page has buttons with the given texts, a body text and a number of
    password inputs.  When [browser_up] is false every call to the browser
    raises; when [lookup_fails] is true the element lookups raise. *)

Inductive demo_elem :=
| DInput (selector : string) (i : nat)
| DSelect (i : nat)
| DButton (i : nat)
| DBody.

Record demo_world := DemoWorld {
  page_buttons : list string;
  page_body : string;
  page_passwords : nat;
  browser_up : bool;
  lookup_fails : bool;
}.

Definition demo_call {A} (a : A) (w : demo_world) : reply A * demo_world :=
  if browser_up w then (Returns a, w)
  else (Raises (Exn WebDriverException "chrome not reachable"), w).

Definition demo_lookup {A} (a : A) (w : demo_world) : reply A * demo_world :=
  if lookup_fails w
  then (Raises (Exn WebDriverException "no such element"), w)
  else demo_call a w.

Definition demo_find_elements (loc : by_ * string) (w : demo_world) : list demo_elem :=
  if String.eqb loc.2 "button" then DButton <$> seq 0 (length (page_buttons w))
  else if String.eqb loc.2 "input[type='password']"
       then DInput loc.2 <$> seq 0 (page_passwords w)
  else if String.eqb loc.2 "select" then [DSelect 0; DSelect 1]
  else [DInput loc.2 0; DInput loc.2 1].

Definition demo_find_element (loc : by_ * string) : demo_elem :=
  match loc.1 with
  | TAG_NAME => DBody
  | CSS_SELECTOR => if String.eqb loc.2 "button" then DButton 0 else DInput loc.2 0
  end.

Definition demo_text (e : demo_elem) (w : demo_world) : string :=
  match e with
  | DButton i => default "" (page_buttons w !! i)
  | DBody => page_body w
  | _ => ""
  end.

Definition demo_attribute (e : demo_elem) (name : string) : option string :=
  match e with
  | DInput _ O => if String.eqb name "value" then Some "25" else None
  | DInput _ _ => if String.eqb name "placeholder" then Some "user@example.com" else None
  | _ => None
  end.

Definition demo_creds : gmap string pyval :=
  {[ "userid" := VStr "printer@example.com"; "password" := VStr "secret" ]}.

Definition demo_config : Config :=
  {[ "target" := {[ "url" := VStr "http://192.168.1.50";
                    "username" := VStr "admin";
                    "password" := VStr "admin" ]};
     "smtp" := {[ "gateway" := VStr "smtp.gmail.com";
                  "port" := VInt 587;
                  "reply_address" := VStr "printer@example.com";
                  "use_ssl" := VStr "starttls";
                  "auth_method" := VStr "login" ]};
     "credentials" := demo_creds;
     "settings" := {[ "headless" := VBool true;
                      "wait_timeout" := VInt 10 ]} ]}.

(** A page with a test and a submit button, two password inputs, and a
    test that passes. *)
Definition demo_page : demo_world :=
  DemoWorld ["Test Connection"; "Submit"] "SMTP test: ALL TESTS PASSED" 2 true false.

(** The test fails. *)
Definition demo_page_failed : demo_world :=
  DemoWorld ["Test Connection"; "Submit"] "SMTP test: FAILED" 2 true false.

(** The page reports a success and mentions an error. *)
Definition demo_page_mixed : demo_world :=
  DemoWorld ["Test Connection"; "Submit"] "SUCCESSFUL after 1 Error" 2 true false.

(** No button is a submit button. *)
Definition demo_page_no_submit : demo_world :=
  DemoWorld ["Test Connection"; "Apply"] "" 2 true false.

(** The browser has died: every call raises. *)
Definition demo_dead : demo_world :=
  DemoWorld [] "" 0 false false.

(** Element lookups raise; the rest of the browser works. *)
Definition demo_lookups_broken : demo_world :=
  DemoWorld [] "" 0 true true.

Definition demo_platform : Platform demo_world unit demo_elem := {|
  chrome _ := demo_call tt;
  implicitly_wait _ _ := demo_call tt;
  driver_get _ _ := demo_call tt;
  wait_presence _ _ loc := demo_lookup (demo_find_element loc);
  find_element _ loc := demo_lookup (demo_find_element loc);
  find_elements _ loc w := demo_lookup (demo_find_elements loc w) w;
  save_screenshot _ _ := demo_call true;
  driver_quit _ := demo_call tt;
  elem_clear _ := demo_call tt;
  elem_send_keys _ _ := demo_call tt;
  elem_click _ := demo_call tt;
  elem_text e w := demo_call (demo_text e w) w;
  elem_get_attribute e name := demo_call (demo_attribute e name);
  select_new _ := demo_call tt;
  select_by_value _ _ := demo_call tt;
  now_stamp _ := "20240101_120000";
  time_sleep _ w := w;
  yaml_safe_load _ := Returns demo_config;
|}.

Section Configurator.
Context {W handle elem : Type} `{!Platform W handle elem}.

(** ** The trace of observable actions *)

Inductive call :=
| CChrome (options : list string)
| CImplicitlyWait (d : handle) (t : pyval)
| CGet (d : handle) (url : pyval)
| CWaitPresence (d : handle) (timeout : Z) (loc : by_ * string)
| CFindElement (d : handle) (loc : by_ * string)
| CFindElements (d : handle) (loc : by_ * string)
| CSaveScreenshot (d : handle) (filename : string)
| CQuit (d : handle)
| CClear (e : elem)
| CSendKeys (e : elem) (v : pyval)
| CClick (e : elem)
| CText (e : elem)
| CGetAttribute (e : elem) (name : string)
| CSelect (e : elem)
| CSelectByValue (e : elem) (v : pyval).

(** [Enter m] marks the entry into the method [m] of the configurator.  It
    has no counterpart in the source and no effect on the run: it makes
    the invocation of a method visible in the trace. *)
Inductive event :=
| Print (line : string)          (* print(line) *)
| Sleep (secs : Z)               (* time.sleep(secs) *)
| Call (c : call)                (* a call made to the browser *)
| Enter (method : string).

(** The process state: the outside world, the file system, the trace
    (oldest event first) and the attribute [self.driver]. *)
Record state := State {
  world : W;
  fs : gmap string fs_node;
  out : list event;
  driver : option handle;
}.

Definition M (A : Type) : Type := state → outcome A * state.

#[local] Instance M_ret : MRet M := λ A a st, (Ret a, st).

#[local] Instance M_bind : MBind M := λ A B f m st,
  match m st with
  | (Ret a, st1) => f a st1
  | (Raise e, st1) => (Raise e, st1)
  | (SystemExit c, st1) => (SystemExit c, st1)
  end.

Definition raise {A} (e : exn) : M A := λ st, (Raise e, st).

(** [exit(code)] *)
Definition sys_exit {A} (code : Z) : M A := λ st, (SystemExit code, st).

(** [try: m  except Exception as e: h e] *)
Definition try_except {A} (m : M A) (h : exn → M A) : M A := λ st,
  match m st with
  | (Raise e, st1) => h e st1
  | r => r
  end.

(** [try: m  except <class>: h]  for one exception class. *)
Definition try_except_on {A} (catches : exn → bool) (m : M A) (h : M A) : M A :=
  λ st,
  match m st with
  | (Raise e, st1) => if catches e then h st1 else (Raise e, st1)
  | r => r
  end.

(** [try: m  finally: fin]: [fin] runs on every exit path of [m]; the
    outcome of [m] is kept unless [fin] itself raises or exits. *)
Definition try_finally {A} (m : M A) (fin : M unit) : M A := λ st,
  match m st with
  | (r, st1) =>
      match fin st1 with
      | (Ret _, st2) => (r, st2)
      | (Raise e, st2) => (Raise e, st2)
      | (SystemExit c, st2) => (SystemExit c, st2)
      end
  end.

Definition emit (ev : event) : M unit := λ st,
  (Ret tt, State (world st) (fs st) (out st ++ [ev]) (driver st)).

Definition print (line : string) : M unit := emit (Print line).

Definition sleep (secs : Z) : M unit := λ st,
  (Ret tt, State (time_sleep secs (world st)) (fs st) (out st ++ [Sleep secs]) (driver st)).

(** The outcome of a call to a library. *)
Definition of_reply {A} (r : reply A) : outcome A :=
  match r with
  | Returns a => Ret a
  | Raises e => Raise e
  end.

(** A call to the browser: recorded in the trace, then performed. *)
Definition browser {A} (c : call) (op : W → reply A * W) : M A := λ st,
  match op (world st) with
  | (r, w) => (of_reply r, State w (fs st) (out st ++ [Call c]) (driver st))
  end.

(** A library call that does not touch the state. *)
Definition lift {A} (r : reply A) : M A := λ st, (of_reply r, st).

(** [d[key]] on a dict. *)
Definition getitem {V} (d : gmap string V) (key : string) : M V :=
  match d !! key with
  | Some v => mret v
  | None => raise (Exn KeyError ("'" +:+ key +:+ "'"))
  end.

(** [self.driver.<attr>]: the session, or AttributeError on [None]. *)
Definition self_driver (attr : string) : M handle := λ st,
  match driver st with
  | Some d => (Ret d, st)
  | None => (Raise (Exn AttributeError
               ("'NoneType' object has no attribute '" +:+ attr +:+ "'")), st)
  end.

Definition set_driver (d : option handle) : M unit := λ st,
  (Ret tt, State (world st) (fs st) (out st) d).

(** [open(path, 'r')] followed by reading the text. *)
Definition py_open (path : string) : M string := λ st,
  match fs st !! path with
  | Some (FFile content) => (Ret content, st)
  | Some FDir =>
      (Raise (Exn IsADirectoryError ("[Errno 21] Is a directory: '" +:+ path +:+ "'")), st)
  | None =>
      (Raise (Exn FileNotFoundError
         ("[Errno 2] No such file or directory: '" +:+ path +:+ "'")), st)
  end.

(** [Path(path).mkdir(exist_ok=True)] *)
Definition mkdir_exist_ok (path : string) : M unit := λ st,
  match fs st !! path with
  | Some FDir => (Ret tt, st)
  | Some (FFile _) =>
      (Raise (Exn FileExistsError ("[Errno 17] File exists: '" +:+ path +:+ "'")), st)
  | None => (Ret tt, State (world st) (<[path := FDir]> (fs st)) (out st) (driver st))
  end.

(** ** Calls to the browser *)

Definition Chrome (options : list string) : M handle :=
  browser (CChrome options) (chrome options).
Definition get (d : handle) (url : pyval) : M unit :=
  browser (CGet d url) (driver_get d url).
Definition until_present (d : handle) (timeout : Z) (loc : by_ * string) : M elem :=
  browser (CWaitPresence d timeout loc) (wait_presence d timeout loc).
Definition find (d : handle) (loc : by_ * string) : M elem :=
  browser (CFindElement d loc) (find_element d loc).
Definition find_all (d : handle) (loc : by_ * string) : M (list elem) :=
  browser (CFindElements d loc) (find_elements d loc).
Definition clear (e : elem) : M unit := browser (CClear e) (elem_clear e).
Definition send_keys (e : elem) (v : pyval) : M unit :=
  browser (CSendKeys e v) (elem_send_keys e v).
Definition click (e : elem) : M unit := browser (CClick e) (elem_click e).
Definition text (e : elem) : M string := browser (CText e) (elem_text e).
Definition get_attribute (e : elem) (name : string) : M (option string) :=
  browser (CGetAttribute e name) (elem_get_attribute e name).
Definition Select (e : elem) : M unit := browser (CSelect e) (select_new e).
Definition select_value (e : elem) (v : pyval) : M unit :=
  browser (CSelectByValue e v) (select_by_value e v).

(** ** class SharpPrinterConfigurator

    [self.config] is the argument [config] of each method, [self.driver]
    the field [driver] of the state, [self.screenshots_dir] the constant
    [screenshots_dir]. *)

Definition screenshots_dir : string := "screenshots".

(** Lines 31-39. *)
Definition _load_config (config_path : string) : M Config :=
  try_except_on is_FileNotFoundError
    (f ← py_open config_path;
     lift (yaml_safe_load f))
    (print ("[ERROR] Config file not found: " +:+ config_path);;
     print "[INFO] Copy config.example.yaml to config.yaml and customize it";;
     sys_exit 1).

(** Lines 24-29. *)
Definition __init__ (config_path : string) : M Config :=
  config ← _load_config config_path;
  set_driver None;;
  mkdir_exist_ok screenshots_dir;;
  mret config.

(** Lines 44-45: the file a screenshot taken in world [w] is saved to. *)
Definition screenshot_path (name : string) (w : W) : string :=
  let timestamp := now_stamp w in
  screenshots_dir +:+ "/" +:+ name +:+ "_" +:+ timestamp +:+ ".png".

(** Lines 41-47. *)
Definition _take_screenshot (name : string) : M unit := λ st,
  match driver st with
  | Some d =>
      (let filename := screenshot_path name (world st) in
       browser (CSaveScreenshot d filename) (save_screenshot d filename);;
       print ("[SCREENSHOT] Saved: " +:+ filename)) st
  | None => (Ret tt, st)
  end.

(** Lines 51-58: the arguments collected in [webdriver.ChromeOptions()]. *)
Definition chrome_options (settings : gmap string pyval) : list string :=
  (if py_bool (default (VBool false) (settings !! "headless"))
   then ["--headless"] else [])
  ++ ["--no-sandbox"; "--disable-dev-shm-usage"; "--window-size=1920,1080"].

(** Lines 49-67. *)
Definition setup_driver (config : Config) : M unit :=
  emit (Enter "setup_driver");;
  settings ← getitem config "settings";
  let options := chrome_options settings in
  try_except
    (d ← Chrome options;
     set_driver (Some d);;
     d ← self_driver "implicitly_wait";
     settings ← getitem config "settings";
     let t := default (VInt 10) (settings !! "wait_timeout") in
     browser (CImplicitlyWait d t) (implicitly_wait d t);;
     print "[SUCCESS] WebDriver initialized")
    (λ e,
     print ("[ERROR] Failed to initialize WebDriver: " +:+ exn_msg e);;
     print "[INFO] Make sure Chrome and ChromeDriver are installed";;
     sys_exit 1).

(** Lines 69-104. *)
Definition login (config : Config) : M unit :=
  try_except
    (emit (Enter "login");;
     target ← getitem config "target";
     url ← getitem target "url";
     print ("[INFO] Navigating to " +:+ py_str url);;
     d ← self_driver "get";
     get d url;;
     (* Wait for login page *)
     until_present d 10 (CSS_SELECTOR, "input[type='text']");;
     (* Find and fill username *)
     d ← self_driver "find_element";
     username_field ← find d (CSS_SELECTOR, "input[type='text']");
     clear username_field;;
     target ← getitem config "target";
     username ← getitem target "username";
     send_keys username_field username;;
     (* Find and fill password *)
     d ← self_driver "find_element";
     password_field ← find d (CSS_SELECTOR, "input[type='password']");
     clear password_field;;
     target ← getitem config "target";
     password ← getitem target "password";
     send_keys password_field password;;
     (* Click login button *)
     d ← self_driver "find_element";
     login_button ← find d (CSS_SELECTOR, "button");
     click login_button;;
     (* Wait for login to complete *)
     sleep 2;;
     print "[SUCCESS] Logged in successfully";;
     _take_screenshot "01_logged_in")
    (λ e,
     print ("[ERROR] Login failed: " +:+ exn_msg e);;
     _take_screenshot "error_login_failed";;
     raise e).

(** [v in choices] for an attribute value [v], which may be [None]. *)
Definition in_list (v : option string) (choices : list string) : bool :=
  match v with
  | Some s => existsb (String.eqb s) choices
  | None => false
  end.

(** Lines 114-119: Primary SMTP Gateway. *)
Definition fill_gateway (smtp : gmap string pyval) : M unit :=
  d ← self_driver "find_element";
  gateway_field ← find d (CSS_SELECTOR,
    "input[placeholder='smtp.gmail.com'], input[placeholder='smtp.example.com']");
  clear gateway_field;;
  gateway ← getitem smtp "gateway";
  send_keys gateway_field gateway;;
  gateway ← getitem smtp "gateway";
  print ("  [OK] Gateway: " +:+ py_str gateway).

(** Lines 123-128: the loop over the text inputs looking for the port. *)
Fixpoint port_loop (smtp : gmap string pyval) (port_fields : list elem) : M unit :=
  match port_fields with
  | [] => mret tt
  | field :: rest =>
      value ← get_attribute field "value";
      if in_list value ["25"; "587"; "465"] then
        clear field;;
        port ← getitem smtp "port";
        send_keys field (VStr (py_str port));;
        port ← getitem smtp "port";
        print ("  [OK] Port: " +:+ py_str port)
      else port_loop smtp rest
  end.

(** Lines 121-128: Port. *)
Definition fill_port (smtp : gmap string pyval) : M unit :=
  d ← self_driver "find_elements";
  port_fields ← find_all d (CSS_SELECTOR, "input[type='text']");
  port_loop smtp port_fields.

(** Lines 130-134: Reply Address. *)
Definition fill_reply_address (smtp : gmap string pyval) : M unit :=
  d ← self_driver "find_element";
  reply_field ← find d (CSS_SELECTOR, "input[type='email']");
  clear reply_field;;
  reply_address ← getitem smtp "reply_address";
  send_keys reply_field reply_address;;
  reply_address ← getitem smtp "reply_address";
  print ("  [OK] Reply Address: " +:+ py_str reply_address).

(** Lines 136-147: the SSL/TLS and the authentication dropdowns. *)
Definition fill_dropdowns (smtp : gmap string pyval) : M unit :=
  d ← self_driver "find_elements";
  ssl_selects ← find_all d (CSS_SELECTOR, "select");
  match ssl_selects !! 0%nat with
  | Some ssl_select =>
      Select ssl_select;;
      use_ssl ← getitem smtp "use_ssl";
      select_value ssl_select use_ssl;;
      use_ssl ← getitem smtp "use_ssl";
      print ("  [OK] SSL/TLS: " +:+ py_str use_ssl)
  | None => mret tt
  end;;
  match ssl_selects !! 1%nat with
  | Some auth_select =>
      Select auth_select;;
      auth_method ← getitem smtp "auth_method";
      select_value auth_select auth_method;;
      auth_method ← getitem smtp "auth_method";
      print ("  [OK] Auth Method: " +:+ py_str auth_method)
  | None => mret tt
  end.

(** Lines 151-157: the loop over the text inputs looking for the userid. *)
Fixpoint userid_loop (creds : gmap string pyval) (userid_fields : list elem) : M unit :=
  match userid_fields with
  | [] => mret tt
  | field :: rest =>
      placeholder ← get_attribute field "placeholder";
      if match placeholder with
         | Some p => (negb (String.eqb p "") && contains "@" p)%bool
         | None => false
         end
      then
        clear field;;
        userid ← getitem creds "userid";
        send_keys field userid;;
        userid ← getitem creds "userid";
        print ("  [OK] Device Userid: " +:+ py_str userid)
      else userid_loop creds rest
  end.

(** Lines 149-157: Device Userid. *)
Definition fill_userid (creds : gmap string pyval) : M unit :=
  d ← self_driver "find_elements";
  userid_fields ← find_all d (CSS_SELECTOR, "input[type='text']");
  userid_loop creds userid_fields.

(** Lines 159-179: Device Password. *)
Definition fill_device_password (creds : gmap string pyval) : M unit :=
  try_except
    (d ← self_driver "find_elements";
     all_password_fields ← find_all d (CSS_SELECTOR, "input[type='password']");
     let password_field :=
       (* Skip the first one (login password), use the last one *)
       if (2 <=? length all_password_fields)%nat then last all_password_fields
       else if (length all_password_fields =? 1)%nat then all_password_fields !! 0%nat
       else None in
     match password_field with
     | Some password_field =>
         clear password_field;;
         password ← getitem creds "password";
         send_keys password_field password;;
         password ← getitem creds "password";
         n ← lift (py_len password);
         print ("  [OK] Device Password: " +:+ string_mul "*" n)
     | None =>
         print "  [WARNING] Could not find device password field"
     end)
    (λ e, print ("  [WARNING] Could not set device password: " +:+ exn_msg e)).

(** Lines 106-187. *)
Definition configure_smtp (config : Config) : M unit :=
  try_except
    (emit (Enter "configure_smtp");;
     print "[INFO] Configuring SMTP settings...";;
     smtp ← getitem config "smtp";
     creds ← getitem config "credentials";
     fill_gateway smtp;;
     fill_port smtp;;
     fill_reply_address smtp;;
     fill_dropdowns smtp;;
     fill_userid creds;;
     fill_device_password creds;;
     _take_screenshot "02_config_filled";;
     print "[SUCCESS] SMTP configuration filled")
    (λ e,
     print ("[ERROR] Configuration failed: " +:+ exn_msg e);;
     _take_screenshot "error_config_failed";;
     raise e).

(** Lines 196-199 and 232-235: click the first button whose lower-cased
    text contains [needle], if there is one. *)
Fixpoint click_first (needle : string) (buttons : list elem) : M unit :=
  match buttons with
  | [] => mret tt
  | button :: rest =>
      t ← text button;
      if contains needle (lower t) then click button
      else click_first needle rest
  end.

(** Lines 190-205: [test_connection] up to the point where it has read
    the text of the page: press the test button, wait, read. *)
Definition read_test_results : M string :=
  emit (Enter "test_connection");;
  print "[INFO] Testing SMTP connection...";;
  (* Find and click Test Connection button *)
  d ← self_driver "find_elements";
  buttons ← find_all d (CSS_SELECTOR, "button");
  click_first "test" buttons;;
  (* Wait for test results *)
  sleep 3;;
  (* Check for success or failure *)
  d ← self_driver "find_element";
  body ← find d (TAG_NAME, "body");
  text body.

(** Lines 191-218: the [try] block of [test_connection].  The result is
    [Some true] for [True], [Some false] for [False] and [None] for [None]. *)
Definition test_connection_body : M (option bool) :=
  body_text ← read_test_results;
  if (contains "ALL TESTS PASSED" body_text || contains "SUCCESSFUL" body_text)%bool then
    print "[SUCCESS] SMTP connection test PASSED";;
    _take_screenshot "03_test_success";;
    mret (Some true)
  else if (contains "FAILED" body_text || contains "error" (lower body_text))%bool then
    print "[ERROR] SMTP connection test FAILED";;
    _take_screenshot "03_test_failed";;
    mret (Some false)
  else
    print "[WARNING] Test results unclear";;
    _take_screenshot "03_test_unknown";;
    mret None.

(** Lines 189-223. *)
Definition test_connection : M (option bool) :=
  try_except test_connection_body
    (λ e,
     print ("[ERROR] Test connection failed: " +:+ exn_msg e);;
     _take_screenshot "error_test_failed";;
     mret (Some false)).

(** Lines 225-244. *)
Definition submit_configuration : M unit :=
  try_except
    (emit (Enter "submit_configuration");;
     print "[INFO] Submitting configuration...";;
     (* Find and click Submit button *)
     d ← self_driver "find_elements";
     buttons ← find_all d (CSS_SELECTOR, "button");
     click_first "submit" buttons;;
     sleep 2;;
     _take_screenshot "04_submitted";;
     print "[SUCCESS] Configuration submitted successfully")
    (λ e,
     print ("[ERROR] Submit failed: " +:+ exn_msg e);;
     _take_screenshot "error_submit_failed";;
     raise e).

(** Truth value of the result of [test_connection]. *)
Definition truthy (r : option bool) : bool :=
  match r with Some true => true | _ => false end.

Definition rule : string := string_mul "=" 60.

(** Lines 286-290: the [finally] block of [run]. *)
Definition close_browser : M unit := λ st,
  match driver st with
  | Some d =>
      (sleep 2;;
       browser (CQuit d) (driver_quit d);;
       print (nl +:+ "[INFO] Browser closed")) st
  | None => (Ret tt, st)
  end.

(** Lines 249-255: what [run] does before it looks at its flags. *)
Definition run_prelude (config : Config) : M unit :=
  print (nl +:+ rule);;
  print "Sharp Printer SMTP Configuration Automation";;
  print (rule +:+ nl);;
  setup_driver config;;
  login config;;
  configure_smtp config.

(** Lines 257-279: the three modes of [run]. *)
Definition run_mode (test_only skip_test : bool) : M unit :=
  if test_only then
    print (nl +:+ "[TEST MODE] Testing connection without submitting");;
    test_connection;;
    mret tt
  else if skip_test then
    print (nl +:+ "[WARNING] Skipping test (real printer mode)");;
    submit_configuration;;
    print (nl +:+ rule);;
    print "[SUCCESS] CONFIGURATION SUBMITTED (without test)";;
    print "[INFO] Verify SMTP works by sending a test scan";;
    print rule
  else
    test_result ← test_connection;
    if truthy test_result then
      submit_configuration;;
      print (nl +:+ rule);;
      print "[SUCCESS] CONFIGURATION COMPLETED SUCCESSFULLY";;
      print rule
    else
      print (nl +:+ rule);;
      print "[WARNING] Configuration filled but NOT submitted due to test failure";;
      print "[INFO] Review the test results and try again";;
      print rule.

(** Lines 281-284: the [except] block of [run]. *)
Definition run_handler (config : Config) (e : exn) : M unit :=
  print (nl +:+ "[ERROR] Automation failed: " +:+ exn_msg e);;
  settings ← getitem config "settings";
  if py_bool (default (VBool true) (settings !! "screenshot_on_failure"))
  then _take_screenshot "error_final"
  else mret tt.

(** Lines 246-290: the [try] block is [run_prelude] followed by
    [run_mode]. *)
Definition run (config : Config) (test_only skip_test : bool) : M unit :=
  try_finally
    (try_except
       (run_prelude config;;
        run_mode test_only skip_test)
       (run_handler config))
    close_browser.

(** The parsed command line (lines 295-314). *)
Record Args := {
  args_config : string;
  args_test_only : bool;
  args_skip_test : bool;
}.

(** Lines 316-317. *)
Definition main (args : Args) : M unit :=
  config ← __init__ (args_config args);
  run config (args_test_only args) (args_skip_test args).

(** The exit status of the process for the outcome of [main]: 0 on a
    normal return, the code of [exit(code)], 1 on an uncaught exception. *)
Definition exit_status {A} (r : outcome A) : Z :=
  match r with
  | Ret _ => 0
  | Raise _ => 1
  | SystemExit code => code
  end.

(** ** Observations on traces *)

Fixpoint count (p : event → bool) (evs : list event) : nat :=
  match evs with
  | [] => O
  | ev :: rest => ((if p ev then 1 else 0) + count p rest)%nat
  end.

(** The event is a call of [driver.quit()]. *)
Definition is_quit (ev : event) : bool :=
  match ev with Call (CQuit _) => true | _ => false end.

(** The event is a click on an element. *)
Definition is_click (ev : event) : bool :=
  match ev with Call (CClick _) => true | _ => false end.

(** The event is the entry into the method [name]. *)
Definition is_enter (name : string) (ev : event) : bool :=
  match ev with Enter m => String.eqb name m | _ => false end.

(** How the warning that the test is skipped begins (line 261). *)
Definition skip_marker : string := nl +:+ "[WARNING] Skipping test".

(** The event prints a warning that the test is skipped. *)
Definition is_skip_warning (ev : event) : bool :=
  match ev with Print line => String.prefix skip_marker line | _ => false end.

(** The events [m] adds to the trace when started in [st]. *)
Definition produces {A} (m : M A) (st : state) (evs : list event) : Prop :=
  out (m st).2 = out st ++ evs.

(** [R] relates every state to the state [m] leaves behind, however
    [m] ends. *)
Definition stable (R : state → state → Prop) {A} (m : M A) : Prop :=
  ∀ st, R st (m st).2.

(** From [st] to [st'] the trace has grown, by events of which exactly
    [n] are selected by [p]. *)
Definition grows_by (p : event → bool) (n : nat) (st st' : state) : Prop :=
  ∃ evs, out st' = out st ++ evs ∧ count p evs = n.

(** The trace has grown, by events that [p] does not select. *)
Definition grows_without (p : event → bool) : state → state → Prop :=
  grows_by p 0.

(** The trace has grown: nothing is said of the new events. *)
Abbreviation extends := (grows_without (λ _ : event, false)).

(** [m] never produces an event selected by [p]. *)
Definition quiet (p : event → bool) {A} (m : M A) : Prop :=
  stable (grows_without p) m.

(** [m] returns or raises an [Exception]: it does not end the process. *)
Definition no_exit {A} (m : M A) : Prop :=
  ∀ st, match (m st).1 with SystemExit _ => False | _ => True end.

(** [self.driver] is the same. *)
Definition same_driver (st st' : state) : Prop := driver st' = driver st.

(** [R] allows the world to change and an event accepted by [ok] to be
    appended to the trace. *)
Definition tolerates (R : state → state → Prop) (ok : event → bool) : Prop :=
  ∀ st w ev, ok ev = true →
    R st (State w (fs st) (out st ++ [ev]) (driver st)).

(** [ok] accepts every sleep, every browser call other than quit and every
    printed line that does not begin like the skip warning. *)
Definition calm (ok : event → bool) : Prop :=
  (∀ line, String.prefix skip_marker line = false → ok (Print line) = true) ∧
  (∀ secs, ok (Sleep secs) = true) ∧
  (∀ c, is_quit (Call c) = false → ok (Call c) = true).

(** [needle] occurs in [s]. *)
Definition substring (needle s : string) : Prop :=
  ∃ pre post, s = pre +:+ needle +:+ post.

(** [needle] occurs in [s] when the case of the letters of [s] is
    ignored ([needle] is in lower case). *)
Definition substring_nocase (needle s : string) : Prop :=
  ∃ u, substring u s ∧ lower u = needle.

(** What a successful screenshot named [name], taken by session [d] in
    world [w], adds to the trace. *)
Definition screenshot_events (d : handle) (name : string) (w : W) : list event :=
  [Call (CSaveScreenshot d (screenshot_path name w));
   Print ("[SCREENSHOT] Saved: " +:+ screenshot_path name w)].

(** Reading the texts of [buttons] one after the other, from world [w] to
    world [w'], finds no text that contains [needle] once lower-cased. *)
Inductive texts_miss (needle : string) : list elem → W → W → Prop :=
| texts_miss_nil w : texts_miss needle [] w w
| texts_miss_cons button rest w t w1 w2 :
    elem_text button w = (Returns t, w1) →
    contains needle (lower t) = false →
    texts_miss needle rest w1 w2 →
    texts_miss needle (button :: rest) w w2.

(** [self.driver] once [setup_driver] is over: the session that
    [webdriver.Chrome] returns in this world, if it returns one. *)
Definition session_after (config : Config) (st : state) : option handle :=
  match config !! "settings" with
  | Some settings =>
      match chrome (chrome_options settings) (world st) with
      | (Returns d, _) => Some d
      | _ => driver st
      end
  | None => driver st
  end.

(** [run] gets as far as choosing its mode: driver setup, login and form
    filling all return normally. *)
Definition reaches_mode (config : Config) (st : state) : bool :=
  match run_prelude config st with
  | (Ret _, _) => true
  | _ => false
  end.

(** [run] gets as far as [test_connection], which returns [True]. *)
Definition test_passes (config : Config) (st : state) : bool :=
  match run_prelude config st with
  | (Ret _, st1) =>
      match test_connection st1 with
      | (Ret (Some true), _) => true
      | _ => false
      end
  | _ => false
  end.

(** The state once [run] has printed its banner (lines 249-251). *)
Definition after_banner (st : state) : state :=
  State (world st) (fs st)
    (out st ++ [Print (nl +:+ rule);
                Print "Sharp Printer SMTP Configuration Automation";
                Print (rule +:+ nl)])
    (driver st).

(** Line 124: the value of a text input is one of the usual SMTP ports. *)
Definition is_default_port (value : option string) : bool :=
  in_list value ["25"; "587"; "465"].

(** Line 153: the placeholder of a text input looks like an address. *)
Definition is_userid_placeholder (placeholder : option string) : bool :=
  match placeholder with
  | Some p => (negb (String.eqb p "") && contains "@" p)%bool
  | None => false
  end.

(** Reading the attribute [name] of [fields] one after the other, from
    world [w] to world [w'], finds no value that [hit] accepts. *)
Inductive attrs_miss (name : string) (hit : option string → bool) :
  list elem → W → W → Prop :=
| attrs_miss_nil w : attrs_miss name hit [] w w
| attrs_miss_cons field rest w v w1 w2 :
    elem_get_attribute field name w = (Returns v, w1) →
    hit v = false →
    attrs_miss name hit rest w1 w2 →
    attrs_miss name hit (field :: rest) w w2.

(** The event is a call to the browser. *)
Definition is_call (ev : event) : bool :=
  match ev with Call _ => true | _ => false end.

(** ** Reasoning about computations *)

Lemma count_app p evs1 evs2 :
  count p (evs1 ++ evs2) = (count p evs1 + count p evs2)%nat.
Proof. induction evs1 as [|ev evs1 IH]; simpl; [done|]. rewrite IH. lia. Qed.

Lemma prefix_spec needle s :
  String.prefix needle s = true ↔ ∃ post, s = needle +:+ post.
Proof.
  revert s. induction needle as [|c needle IH]; intros s; simpl.
  - split; [intros _; by exists s|by destruct s].
  - destruct s as [|c' s]; simpl.
    + split; [done|by intros [post ?]].
    + destruct (Ascii.ascii_dec c c') as [->|Hne].
      * rewrite IH. split; intros [post E]; exists post; [by rewrite E|].
        by injection E.
      * split; [done|]. intros [post E]. by injection E.
Qed.

Lemma append_empty_r s : s +:+ "" = s.
Proof.
  induction s as [|c s IH]; [done|].
  change (String c s +:+ "") with (String c (s +:+ "")). by rewrite IH.
Qed.

Lemma contains_cons needle c s :
  contains needle (String c s) =
  if String.prefix needle (String c s) then true else contains needle s.
Proof. reflexivity. Qed.

(** [contains] decides the substring relation. *)
Lemma contains_spec needle s :
  contains needle s = true ↔ substring needle s.
Proof.
  unfold substring. split.
  - induction s as [|c s IH].
    + simpl. destruct needle; [|done]. intros _. by exists "", "".
    + rewrite contains_cons.
      destruct (String.prefix needle (String c s)) eqn:E.
      * intros _. apply prefix_spec in E as [post E]. by exists "", post.
      * intros H. destruct (IH H) as (pre & post & ->).
        by exists (String c pre), post.
  - intros (pre & post & ->). induction pre as [|c pre IH].
    + assert (E : String.prefix needle (needle +:+ post) = true)
        by (apply prefix_spec; eauto).
      change ("" +:+ needle +:+ post) with (needle +:+ post).
      destruct (needle +:+ post); [simpl in *; by rewrite E|].
      by rewrite contains_cons, E.
    + change (String c pre +:+ needle +:+ post)
        with (String c (pre +:+ needle +:+ post)).
      rewrite contains_cons, IH. by destruct (String.prefix _ _).
Qed.

Lemma lower_app s1 s2 : lower (s1 +:+ s2) = lower s1 +:+ lower s2.
Proof.
  induction s1 as [|c s1 IH]; [done|].
  change (String c s1 +:+ s2) with (String c (s1 +:+ s2)).
  cbn [lower]. by rewrite IH.
Qed.

Lemma lower_split s p q :
  lower s = p +:+ q → ∃ s1 s2, s = s1 +:+ s2 ∧ lower s1 = p ∧ lower s2 = q.
Proof.
  revert s. induction p as [|c p IH]; intros s E.
  - by exists "", s.
  - destruct s as [|c' s]; [done|].
    change (String c p +:+ q) with (String c (p +:+ q)) in E.
    cbn [lower] in E. injection E as Ec E.
    destruct (IH s E) as (s1 & s2 & -> & <- & <-).
    exists (String c' s1), s2. cbn [lower]. by rewrite Ec.
Qed.

(** Searching the lower-cased text is searching without regard to case. *)
Lemma substring_lower needle s :
  substring needle (lower s) ↔ substring_nocase needle s.
Proof.
  split.
  - intros (pre & post & E).
    apply lower_split in E as (s1 & s23 & -> & <- & E).
    apply lower_split in E as (u & s3 & -> & <- & <-).
    exists u. split; [by exists s1, s3|done].
  - intros (u & (pre & post & ->) & <-).
    exists (lower pre), (lower post). by rewrite !lower_app.
Qed.

Lemma bind_run {A B} (m : M A) (f : A → M B) st :
  (m ≫= f) st =
  match m st with
  | (Ret a, st1) => f a st1
  | (Raise e, st1) => (Raise e, st1)
  | (SystemExit c, st1) => (SystemExit c, st1)
  end.
Proof. reflexivity. Qed.

Lemma bind_ret_run {A B} (m : M A) (f : A → M B) st a st1 :
  m st = (Ret a, st1) → (m ≫= f) st = f a st1.
Proof. intros E. rewrite bind_run, E. done. Qed.

Lemma bind_exit_run {A B} (m : M A) (f : A → M B) st c st1 :
  m st = (SystemExit c, st1) → (m ≫= f) st = (SystemExit c, st1).
Proof. intros E. rewrite bind_run, E. done. Qed.

Lemma grows_by_refl p st : grows_by p 0 st st.
Proof. exists []. by rewrite app_nil_r. Qed.

Lemma grows_by_trans p n1 n2 st1 st2 st3 :
  grows_by p n1 st1 st2 → grows_by p n2 st2 st3 →
  grows_by p (n1 + n2) st1 st3.
Proof.
  intros (evs1 & E1 & C1) (evs2 & E2 & C2). exists (evs1 ++ evs2).
  by rewrite E2, E1, count_app, C1, C2, app_assoc.
Qed.

#[local] Instance grows_without_preorder p : PreOrder (grows_without p).
Proof.
  split.
  - intros st. apply grows_by_refl.
  - intros st1 st2 st3 H1 H2. apply (grows_by_trans p 0 0 _ _ _ H1 H2).
Qed.

#[local] Instance same_driver_preorder : PreOrder same_driver.
Proof.
  split; [done|]. unfold same_driver. intros st1 st2 st3 E1 E2. congruence.
Qed.

Lemma grows_without_tolerates p : tolerates (grows_without p) (λ ev, negb (p ev)).
Proof.
  intros st w ev Hok. exists [ev]. split; [done|]. simpl.
  by destruct (p ev).
Qed.

Lemma same_driver_tolerates : tolerates same_driver (λ _, true).
Proof. done. Qed.

Lemma is_quit_calm : calm (λ ev, negb (is_quit ev)).
Proof. repeat split; [done..|]. by intros c ->. Qed.

Lemma is_enter_calm name : calm (λ ev, negb (is_enter name ev)).
Proof. by repeat split. Qed.

Lemma is_skip_warning_calm : calm (λ ev, negb (is_skip_warning ev)).
Proof. repeat split; [|done..]. intros line H. simpl. by rewrite H. Qed.

Lemma true_calm : calm (λ _, true).
Proof. by repeat split. Qed.

Section Stable.
Context (R : state → state → Prop) `{!PreOrder R}.
Context (ok : event → bool) (Htol : tolerates R ok) (Hok : calm ok).

Lemma stable_ret {A} (a : A) : stable R (mret a : M A).
Proof. intros st. simpl. reflexivity. Qed.

Lemma stable_raise {A} e : stable R (raise e : M A).
Proof. intros st. simpl. reflexivity. Qed.

Lemma stable_sys_exit {A} c : stable R (sys_exit c : M A).
Proof. intros st. simpl. reflexivity. Qed.

Lemma stable_lift {A} (r : reply A) : stable R (lift r).
Proof. intros st. simpl. reflexivity. Qed.

Lemma stable_getitem {V} (d : gmap string V) key : stable R (getitem d key).
Proof. intros st. unfold getitem. destruct (d !! key); simpl; reflexivity. Qed.

Lemma stable_self_driver attr : stable R (self_driver attr).
Proof. intros st. unfold self_driver. destruct (driver st); simpl; reflexivity. Qed.

Lemma stable_emit ev : ok ev = true → stable R (emit ev).
Proof. intros H st. apply Htol, H. Qed.

Lemma stable_print line :
  String.prefix skip_marker line = false → stable R (print line).
Proof. intros H. apply stable_emit, Hok, H. Qed.

Lemma stable_sleep secs : stable R (sleep secs).
Proof. intros st. apply Htol, Hok. Qed.

Lemma stable_browser {A} c (op : W → reply A * W) :
  is_quit (Call c) = false → stable R (browser c op).
Proof.
  intros H st. unfold browser. destruct (op (world st)) as [r w]. simpl.
  apply Htol, Hok, H.
Qed.

Lemma stable_bind {A B} (m : M A) (f : A → M B) :
  stable R m → (∀ a, stable R (f a)) → stable R (m ≫= f).
Proof.
  intros Hm Hf st. specialize (Hm st). rewrite bind_run.
  destruct (m st) as [[a|e|c] st1]; simpl in *; [|done..].
  etrans; [exact Hm|apply Hf].
Qed.

Lemma stable_try_except {A} (m : M A) h :
  stable R m → (∀ e, stable R (h e)) → stable R (try_except m h).
Proof.
  intros Hm Hh st. specialize (Hm st). unfold try_except.
  destruct (m st) as [[a|e|c] st1]; simpl in *; [done| |done].
  etrans; [exact Hm|apply Hh].
Qed.

Lemma stable_try_finally {A} (m : M A) fin :
  stable R m → stable R fin → stable R (try_finally m fin).
Proof.
  intros Hm Hf st. specialize (Hm st). unfold try_finally.
  destruct (m st) as [r st1]. specialize (Hf st1). simpl in *.
  destruct (fin st1) as [[?|?|?] st2]; simpl in *; by etrans.
Qed.

End Stable.

(** Run a computation as far as its first call to the outside. *)
Ltac exec := repeat first [rewrite bind_run | progress simpl].

Create HintDb stable.
#[local] Hint Resolve stable_ret stable_raise stable_sys_exit stable_lift
  stable_getitem stable_self_driver stable_sleep : stable.
#[local] Hint Extern 1 (PreOrder _) => typeclasses eauto : stable.

Ltac stable_step :=
  first
    [ solve [eauto with stable]
    | lazymatch goal with
      | |- stable _ (_ ≫= _) => apply stable_bind; [typeclasses eauto| |intros ?]
      | |- stable _ (try_except _ _) =>
          apply stable_try_except; [typeclasses eauto| |intros ?]
      | |- stable _ (browser _ _) => eapply stable_browser; [eassumption..|reflexivity]
      | |- stable _ (print _) =>
          first [ eapply stable_print; [eassumption..|reflexivity]
                | eapply stable_emit; [eassumption|reflexivity] ]
      | |- stable _ (emit _) =>
          eapply stable_emit; [eassumption|first [assumption|reflexivity]]
      | |- stable _ (if ?b then _ else _) => destruct b
      | |- stable _ (match ?x with _ => _ end) => destruct x
      | |- stable _ (let _ := _ in _) => cbv zeta
      | |- stable _ _ =>
          progress unfold Chrome, get, until_present, find, find_all, clear,
            send_keys, click, text, get_attribute, Select, select_value
      end ].

Ltac stable_tac := repeat stable_step.

Section StableMethods.
Context (R : state → state → Prop) `{!PreOrder R}.
Context (ok : event → bool) (Htol : tolerates R ok) (Hok : calm ok).

Lemma stable_take_screenshot name : stable R (_take_screenshot name).
Proof.
  intros st. unfold _take_screenshot.
  destruct (driver st) as [d|]; [|simpl; reflexivity].
  cbv zeta.
  refine ((_ : stable R (browser (CSaveScreenshot d _) (save_screenshot d _);;
                         print ("[SCREENSHOT] Saved: " +:+ _))) st).
  stable_tac.
Qed.
#[local] Hint Resolve stable_take_screenshot : stable.

Lemma stable_login config :
  ok (Enter "login") = true → stable R (login config).
Proof. intros He. unfold login. stable_tac. Qed.

Lemma stable_port_loop smtp fields : stable R (port_loop smtp fields).
Proof.
  induction fields as [|field rest IH]; simpl; [auto with stable|]. stable_tac.
Qed.

Lemma stable_userid_loop creds fields : stable R (userid_loop creds fields).
Proof.
  induction fields as [|field rest IH]; simpl; [auto with stable|]. stable_tac.
Qed.

Lemma stable_click_first needle buttons : stable R (click_first needle buttons).
Proof.
  induction buttons as [|button rest IH]; simpl; [auto with stable|]. stable_tac.
Qed.
#[local] Hint Resolve stable_port_loop stable_userid_loop stable_click_first : stable.

Lemma stable_fill_device_password creds : stable R (fill_device_password creds).
Proof. unfold fill_device_password. stable_tac. Qed.
#[local] Hint Resolve stable_fill_device_password : stable.

Lemma stable_configure_smtp config :
  ok (Enter "configure_smtp") = true → stable R (configure_smtp config).
Proof.
  intros He.
  unfold configure_smtp, fill_gateway, fill_port, fill_reply_address,
    fill_dropdowns, fill_userid.
  stable_tac.
Qed.

Lemma stable_test_connection :
  ok (Enter "test_connection") = true → stable R test_connection.
Proof.
  intros He. unfold test_connection, test_connection_body, read_test_results.
  stable_tac.
Qed.

Lemma stable_submit_configuration :
  ok (Enter "submit_configuration") = true → stable R submit_configuration.
Proof. intros He. unfold submit_configuration. stable_tac. Qed.

(** [setup_driver] assigns [self.driver]: it is stable for the relations
    that allow it. *)
Lemma stable_setup_driver config :
  ok (Enter "setup_driver") = true → (∀ d, stable R (set_driver d)) →
  stable R (setup_driver config).
Proof. intros He Hset. unfold setup_driver. stable_tac. Qed.

Lemma stable_run_prelude config :
  ok (Enter "setup_driver") = true → ok (Enter "login") = true →
  ok (Enter "configure_smtp") = true → (∀ d, stable R (set_driver d)) →
  stable R (run_prelude config).
Proof.
  intros H1 H2 H3 Hset. unfold run_prelude.
  pose proof (stable_setup_driver config H1 Hset).
  pose proof (stable_login config H2).
  pose proof (stable_configure_smtp config H3).
  stable_tac.
Qed.

Lemma stable_run_handler config e : stable R (run_handler config e).
Proof. unfold run_handler. stable_tac. Qed.

End StableMethods.

(** *** Instances: no quit, no entry into a method, same session *)

Lemma quiet_set_driver p d : stable (grows_without p) (set_driver d).
Proof. intros st. exists []. by rewrite app_nil_r. Qed.

#[local] Hint Resolve stable_take_screenshot stable_login stable_configure_smtp
  stable_test_connection stable_submit_configuration stable_setup_driver
  stable_run_prelude stable_run_handler stable_click_first
  stable_fill_device_password : stable.
#[local] Hint Resolve quiet_set_driver grows_without_tolerates
  same_driver_tolerates is_quit_calm is_enter_calm is_skip_warning_calm
  true_calm : stable.

Lemma bind_same_driver {A B} (m : M A) (f : A → M B) st :
  (∀ a, stable same_driver (f a)) →
  driver ((m ≫= f) st).2 = driver (m st).2.
Proof.
  intros Hf. rewrite bind_run. destruct (m st) as [[a|e|c] st1]; [|done..].
  apply Hf.
Qed.

Lemma try_except_same_driver {A} (m : M A) h st :
  (∀ e, stable same_driver (h e)) →
  driver (try_except m h st).2 = driver (m st).2.
Proof.
  intros Hh. unfold try_except. destruct (m st) as [[a|e|c] st1]; [done| |done].
  apply Hh.
Qed.

Lemma close_browser_same_driver : stable same_driver close_browser.
Proof.
  intros st. unfold close_browser, same_driver.
  destruct (driver st) as [d|] eqn:Ed; [|done].
  rewrite bind_run. simpl. rewrite bind_run. unfold browser. simpl.
  destruct (driver_quit d (time_sleep 2 (world st))) as [[[]|e] w]; done.
Qed.

(** What the [finally] block of [run] adds to the trace. *)
Lemma close_browser_produces st :
  match driver st with
  | Some d => ∃ after,
      produces close_browser st ([Sleep 2; Call (CQuit d)] ++ after) ∧
      (after = [] ∨ after = [Print (nl +:+ "[INFO] Browser closed")])
  | None => produces close_browser st []
  end.
Proof.
  unfold close_browser, produces. destruct (driver st) as [d|] eqn:Ed.
  - rewrite bind_run. simpl. rewrite bind_run. unfold browser. simpl.
    destruct (driver_quit d (time_sleep 2 (world st))) as [[[]|e] w]; simpl.
    + exists [Print (nl +:+ "[INFO] Browser closed")].
      rewrite <- !app_assoc. auto.
    + exists []. rewrite <- !app_assoc. auto.
  - by rewrite app_nil_r.
Qed.

(** The [finally] block of [run] produces no event selected by [p], if
    [p] selects neither calls nor sleeps nor its last print. *)
Lemma close_browser_quiet p :
  (∀ c, p (Call c) = false) → (∀ secs, p (Sleep secs) = false) →
  p (Print (nl +:+ "[INFO] Browser closed")) = false →
  stable (grows_without p) close_browser.
Proof.
  intros Hc Hs Hp st. pose proof (close_browser_produces st) as H.
  unfold produces in H. destruct (driver st) as [d|].
  - destruct H as (after & E & Hafter). exists ([Sleep 2; Call (CQuit d)] ++ after).
    split; [done|]. simpl. rewrite Hc, Hs.
    destruct Hafter as [->| ->]; simpl; by rewrite ?Hp.
  - by exists [].
Qed.

(** [setup_driver] leaves in [self.driver] the session Chrome returned. *)
Lemma setup_driver_session config st :
  driver (setup_driver config st).2 = session_after config st.
Proof.
  unfold setup_driver, session_after. rewrite bind_run. simpl.
  rewrite bind_run. unfold getitem at 1.
  destruct (config !! "settings") as [settings|]; simpl; [|done].
  unfold try_except, Chrome. rewrite bind_run. unfold browser at 1. simpl.
  destruct (chrome (chrome_options settings) (world st)) as [[d|e] w]; simpl;
    [|done].
  rewrite bind_run. simpl.
  match goal with |- driver (match ?m ?s with _ => _ end).2 = _ =>
    assert (Hk : stable same_driver m);
      [|specialize (Hk s); destruct (m s) as [[?|?|?] ?]; exact Hk] end.
  pose proof same_driver_tolerates. pose proof true_calm.
  stable_tac.
Qed.

(** ** The session is closed exactly once (C2) *)

(** C2.  Whatever the flags, the configuration and the behaviour of the
    browser (any call may raise, at any step), [run] ends with
    [self.driver] holding the session that [webdriver.Chrome] created, if
    it created one; when there is such a session, [driver.quit()] is called
    on it exactly once during the run, right after [time.sleep(2)]; when
    there is none, [quit] is not called at all. *)
Theorem run_quits_session_once config test_only skip_test st :
  let st' := (run config test_only skip_test st).2 in
  driver st' = session_after config st ∧
  match driver st' with
  | Some d => ∃ before after,
      produces (run config test_only skip_test) st
        (before ++ [Sleep 2; Call (CQuit d)] ++ after) ∧
      count is_quit before = O ∧ count is_quit after = O ∧
      count is_quit (before ++ [Sleep 2; Call (CQuit d)] ++ after) = 1%nat
  | None => ∃ evs,
      produces (run config test_only skip_test) st evs ∧ count is_quit evs = O
  end.
Proof.
  unfold run, produces.
  match goal with |- context [try_finally ?b close_browser] => set (body := b) end.
  assert (Hq : quiet is_quit body).
  { subst body. unfold quiet, run_mode.
    pose proof (grows_without_tolerates is_quit). pose proof is_quit_calm.
    stable_tac. }
  assert (Hd : driver (body st).2 = session_after config st).
  { subst body. pose proof same_driver_tolerates. pose proof true_calm.
    rewrite try_except_same_driver by (intros; eauto with stable).
    rewrite bind_same_driver by (intros; unfold run_mode; stable_tac).
    unfold run_prelude. do 3 (rewrite bind_run; simpl).
    rewrite bind_same_driver by (intros; stable_tac).
    by rewrite setup_driver_session. }
  destruct (Hq st) as (evs & Eb & Cb). clearbody body.
  pose proof (close_browser_same_driver (body st).2) as Hsame.
  pose proof (close_browser_produces (body st).2) as Hfin.
  unfold same_driver, produces in *. unfold try_finally. cbv zeta.
  destruct (body st) as [r st1]. simpl in *.
  destruct (close_browser st1) as [[[]|e2|c2] st2]; simpl in *;
    (rewrite Hsame; split; [done|]); destruct (driver st1) as [d|].
  all: try (destruct Hfin as (after & Ef & Ha); exists evs, after;
            split; [by rewrite Ef, Eb, <- app_assoc|];
            rewrite count_app, Cb; simpl; by destruct Ha as [->| ->]).
  all: exists evs; by rewrite Hfin, app_nil_r.
Qed.

(** ** Screenshots *)

Lemma take_screenshot_ok name st d b w2 :
  driver st = Some d →
  save_screenshot d (screenshot_path name (world st)) (world st) = (Returns b, w2) →
  _take_screenshot name st =
  (Ret tt, State w2 (fs st) (out st ++ screenshot_events d name (world st)) (driver st)).
Proof.
  intros Hd Hs. unfold _take_screenshot. rewrite Hd. cbv zeta.
  rewrite bind_run. unfold browser. rewrite Hs. simpl.
  unfold print, emit, screenshot_events. simpl. by rewrite <- app_assoc, Hd.
Qed.

Lemma take_screenshot_raise name st d e w2 :
  driver st = Some d →
  save_screenshot d (screenshot_path name (world st)) (world st) = (Raises e, w2) →
  _take_screenshot name st =
  (Raise e, State w2 (fs st)
     (out st ++ [Call (CSaveScreenshot d (screenshot_path name (world st)))])
     (driver st)).
Proof.
  intros Hd Hs. unfold _take_screenshot. rewrite Hd. cbv zeta.
  rewrite bind_run. unfold browser. rewrite Hs. simpl. by rewrite Hd.
Qed.

(** ** The connection test (C3, C7, C9) *)

(** Once the page text has been read, the first matching case decides the
    result, provided the screenshot of that case can be saved. *)
Lemma test_connection_after_reading st body_text st1 d b w2 :
  read_test_results st = (Ret body_text, st1) →
  driver st1 = Some d →
  let pass := (contains "ALL TESTS PASSED" body_text
               || contains "SUCCESSFUL" body_text)%bool in
  let fail := (contains "FAILED" body_text
               || contains "error" (lower body_text))%bool in
  let line := if pass then "[SUCCESS] SMTP connection test PASSED"
              else if fail then "[ERROR] SMTP connection test FAILED"
              else "[WARNING] Test results unclear" in
  let label := if pass then "03_test_success"
               else if fail then "03_test_failed" else "03_test_unknown" in
  let result := if pass then Some true
                else if fail then Some false else None in
  save_screenshot d (screenshot_path label (world st1)) (world st1) = (Returns b, w2) →
  test_connection st =
  (Ret result,
   State w2 (fs st1)
     (out st1 ++ Print line :: screenshot_events d label (world st1))
     (driver st1)).
Proof.
  intros Hread Hd pass fail line label result Hshot.
  unfold test_connection, try_except, test_connection_body.
  rewrite (bind_ret_run _ _ _ _ _ Hread).
  fold pass fail.
  assert (Hstep : ∀ (r : option bool),
    (print line;; _take_screenshot label;; mret r) st1 =
    (Ret r, State w2 (fs st1)
       (out st1 ++ Print line :: screenshot_events d label (world st1))
       (driver st1))).
  { intros r. rewrite bind_run. simpl. rewrite bind_run.
    erewrite take_screenshot_ok by (simpl; eassumption).
    simpl. by rewrite <- app_assoc. }
  subst line label result. destruct pass, fail; by rewrite Hstep.
Qed.

(** C3.  Once [test_connection] has read the text of the page, it
    classifies it by the first case that applies: the text contains
    "ALL TESTS PASSED" or "SUCCESSFUL": a line announces the success, the
    screenshot "03_test_success" is taken and the result is [True];
    otherwise the text contains "FAILED" or, whatever the case of its
    letters, "error": the
    screenshot is "03_test_failed" and the result [False]; otherwise the
    screenshot is "03_test_unknown" and the result [None].  In each case
    the result is returned when the screenshot can be saved. *)
Theorem test_connection_classifies st body_text st1 d :
  read_test_results st = (Ret body_text, st1) →
  driver st1 = Some d →
  let outcome_is (line label : string) (result : option bool) : Prop :=
    ∀ b w2,
      save_screenshot d (screenshot_path label (world st1)) (world st1) = (Returns b, w2) →
      test_connection st =
      (Ret result,
       State w2 (fs st1)
         (out st1 ++ Print line :: screenshot_events d label (world st1))
         (driver st1)) in
  let pass := substring "ALL TESTS PASSED" body_text
              ∨ substring "SUCCESSFUL" body_text in
  let fail := substring "FAILED" body_text
              ∨ substring_nocase "error" body_text in
  (pass → outcome_is "[SUCCESS] SMTP connection test PASSED"
            "03_test_success" (Some true)) ∧
  (¬ pass → fail → outcome_is "[ERROR] SMTP connection test FAILED"
                     "03_test_failed" (Some false)) ∧
  (¬ pass → ¬ fail → outcome_is "[WARNING] Test results unclear"
                       "03_test_unknown" None).
Proof.
  intros Hread Hd outcome_is pass fail.
  pose proof (test_connection_after_reading st body_text st1 d) as Hcore.
  specialize (λ b w2, Hcore b w2 Hread Hd). cbv zeta in Hcore.
  assert (Hpass : (contains "ALL TESTS PASSED" body_text
                   || contains "SUCCESSFUL" body_text)%bool = true ↔ pass).
  { rewrite orb_true_iff, !contains_spec. done. }
  assert (Hfail : (contains "FAILED" body_text
                   || contains "error" (lower body_text))%bool = true ↔ fail).
  { rewrite orb_true_iff, !contains_spec, substring_lower. done. }
  destruct (contains "ALL TESTS PASSED" body_text
            || contains "SUCCESSFUL" body_text)%bool;
    destruct (contains "FAILED" body_text
              || contains "error" (lower body_text))%bool;
    simpl in Hcore; subst outcome_is; cbv beta; (split; [|split]); intros;
    first [by eapply Hcore|exfalso; intuition congruence].
Qed.

(** C9.  The success check comes first: when the text of the page contains
    a success marker and also a failure marker, [test_connection] takes the
    success screenshot and returns [True]. *)
Theorem test_connection_success_first st body_text st1 d b w2 :
  read_test_results st = (Ret body_text, st1) →
  driver st1 = Some d →
  substring "ALL TESTS PASSED" body_text ∨ substring "SUCCESSFUL" body_text →
  substring "FAILED" body_text ∨ substring_nocase "error" body_text →
  save_screenshot d (screenshot_path "03_test_success" (world st1)) (world st1)
    = (Returns b, w2) →
  test_connection st =
  (Ret (Some true),
   State w2 (fs st1)
     (out st1 ++ Print "[SUCCESS] SMTP connection test PASSED"
        :: screenshot_events d "03_test_success" (world st1))
     (driver st1)).
Proof.
  intros Hread Hd Hpass _ Hshot.
  pose proof (test_connection_after_reading st body_text st1 d b w2 Hread Hd)
    as Hcore.
  cbv zeta in Hcore.
  assert (E : (contains "ALL TESTS PASSED" body_text
               || contains "SUCCESSFUL" body_text)%bool = true).
  { rewrite orb_true_iff, !contains_spec. done. }
  rewrite E in Hcore. by apply Hcore.
Qed.

(** C7 (amended).  When the [try] block of [test_connection] raises [e],
    the error line is printed and the screenshot "error_test_failed" is
    attempted on the open session.  If it is saved, [test_connection]
    returns [False] and [e] does not propagate; if saving it raises, that
    exception propagates instead.  Without a session no screenshot is
    taken and the result is [False]. *)
Theorem test_connection_catches st e st1 :
  test_connection_body st = (Raise e, st1) →
  let line := "[ERROR] Test connection failed: " +:+ exn_msg e in
  match driver st1 with
  | Some d =>
      let file := screenshot_path "error_test_failed" (world st1) in
      match save_screenshot d file (world st1) with
      | (Returns _, w2) =>
          test_connection st =
          (Ret (Some false),
           State w2 (fs st1)
             (out st1 ++ Print line
                :: screenshot_events d "error_test_failed" (world st1))
             (driver st1))
      | (Raises e2, w2) =>
          test_connection st =
          (Raise e2,
           State w2 (fs st1)
             (out st1 ++ [Print line; Call (CSaveScreenshot d file)])
             (driver st1))
      end
  | None =>
      test_connection st =
      (Ret (Some false),
       State (world st1) (fs st1) (out st1 ++ [Print line]) None)
  end.
Proof.
  intros Hbody line. unfold test_connection, try_except. rewrite Hbody.
  rewrite bind_run. simpl. rewrite bind_run.
  destruct (driver st1) as [d|] eqn:Hd; rewrite <- ?Hd.
  - cbv zeta.
    destruct (save_screenshot d _ (world st1)) as [[b|e2] w2] eqn:Hs.
    + erewrite take_screenshot_ok by (simpl; eassumption).
      simpl. by rewrite <- app_assoc, Hd.
    + erewrite take_screenshot_raise by (simpl; eassumption).
      simpl. by rewrite <- app_assoc, Hd.
  - unfold _take_screenshot. simpl. by rewrite Hd.
Qed.

(** ** Submitting (C10) *)

Lemma click_first_miss needle buttons st w2 :
  texts_miss needle buttons (world st) w2 →
  click_first needle buttons st =
  (Ret tt, State w2 (fs st) (out st ++ (Call ∘ CText <$> buttons)) (driver st)).
Proof.
  revert st. induction buttons as [|button rest IH]; intros st Hmiss.
  - inversion Hmiss; subst. simpl. rewrite app_nil_r. by destruct st.
  - inversion Hmiss as [|? ? ? t w1 ? Htext Hno Hrest]; subst.
    simpl. rewrite bind_run. unfold text, browser. rewrite Htext. simpl.
    rewrite Hno. rewrite IH by exact Hrest. simpl. by rewrite <- app_assoc.
Qed.

Lemma count_texts p (buttons : list elem) :
  (∀ e, p (Call (CText e)) = false) →
  count p (Call ∘ CText <$> buttons) = O.
Proof.
  intros Hp. induction buttons as [|button rest IH]; [done|].
  rewrite fmap_cons. cbn [count compose]. rewrite Hp. exact IH.
Qed.

(** C10.  When the page has no button whose lower-cased text contains
    "submit", [submit_configuration] clicks nothing and does not raise: it
    waits two seconds, takes the screenshot "04_submitted" and prints the
    success line. *)
Theorem submit_without_button st d buttons w1 w2 b w3 :
  driver st = Some d →
  find_elements d (CSS_SELECTOR, "button") (world st) = (Returns buttons, w1) →
  texts_miss "submit" buttons w1 w2 →
  save_screenshot d (screenshot_path "04_submitted" (time_sleep 2 w2))
    (time_sleep 2 w2) = (Returns b, w3) →
  let evs :=
    [Enter "submit_configuration";
     Print "[INFO] Submitting configuration...";
     Call (CFindElements d (CSS_SELECTOR, "button"))]
    ++ (Call ∘ CText <$> buttons)
    ++ [Sleep 2]
    ++ screenshot_events d "04_submitted" (time_sleep 2 w2)
    ++ [Print "[SUCCESS] Configuration submitted successfully"] in
  submit_configuration st = (Ret tt, State w3 (fs st) (out st ++ evs) (driver st)) ∧
  count is_click evs = O.
Proof.
  intros Hd Hfind Hmiss Hshot evs. split.
  - unfold submit_configuration, try_except.
    rewrite bind_run. simpl. rewrite bind_run. simpl. rewrite bind_run.
    unfold self_driver at 1. simpl. rewrite Hd.
    rewrite bind_run. unfold find_all, browser at 1. simpl. rewrite Hfind.
    simpl. rewrite bind_run. erewrite click_first_miss by (simpl; exact Hmiss).
    rewrite bind_run. simpl. rewrite bind_run.
    erewrite take_screenshot_ok by (simpl; first [eassumption|reflexivity]).
    simpl. subst evs. unfold screenshot_events. by rewrite <- !app_assoc.
  - subst evs. rewrite !count_app, count_texts by done. done.
Qed.

(** ** A missing configuration file ends the process (C6) *)

(** C6.  When nothing exists at [config_path], [_load_config] prints an
    error line that contains the path, prints a hint and ends the process
    with [exit(1)]; so does the program started with that path, whose exit
    status is 1. *)
Theorem load_config_missing_file config_path st :
  fs st !! config_path = None →
  let line := "[ERROR] Config file not found: " +:+ config_path in
  let st' :=
    State (world st) (fs st)
      (out st ++ [Print line;
                  Print "[INFO] Copy config.example.yaml to config.yaml and customize it"])
      (driver st) in
  _load_config config_path st = (SystemExit 1, st') ∧
  contains config_path line = true ∧
  ∀ args, args_config args = config_path →
    main args st = (SystemExit 1, st') ∧ exit_status (main args st).1 = 1.
Proof.
  intros Hmissing line st'.
  assert (Hload : _load_config config_path st = (SystemExit 1, st')).
  { unfold _load_config, try_except_on. rewrite bind_run. unfold py_open.
    rewrite Hmissing. exec. subst st' line. by rewrite <- app_assoc. }
  split; [done|]. split.
  - apply contains_spec. exists "[ERROR] Config file not found: ", "".
    by rewrite append_empty_r.
  - intros args <-. unfold main, __init__.
    rewrite (bind_exit_run _ _ _ _ _ (bind_exit_run _ _ _ _ _ Hload)). done.
Qed.


(** ** The modes of [run] (C1, C4, C8) *)

(** Close a goal [grows_by p n st st'] from the growth of the states that
    lead to [st']. *)
Ltac grows_tac :=
  unfold grows_without in *;
  repeat match goal with
         | H : grows_by _ _ _ _ |- _ =>
             let evs := fresh "evs" in
             let E := fresh "E" in
             let C := fresh "C" in
             destruct H as (evs & E & C)
         end;
  simpl in *; unfold grows_by; eexists; split;
  [ repeat match goal with E : out _ = _ |- _ => rewrite E; clear E end;
    rewrite <- ?app_assoc; simpl; reflexivity
  | repeat (rewrite ?count_app; simpl);
    repeat match goal with C : count _ _ = _ |- _ => rewrite C; clear C end;
    simpl; try lia ].

(** A method that starts its [try] block by recording its entry. *)
Lemma enters_once {A} p ev (m m' : M A) st :
  p ev = true →
  m st = m' (emit ev st).2 →
  stable (grows_without p) m' →
  grows_by p 1 st (m st).2.
Proof.
  intros Hev -> Hq. specialize (Hq (emit ev st).2).
  destruct Hq as (evs & E & C). exists (ev :: evs). simpl in *.
  by rewrite E, <- app_assoc, Hev, C.
Qed.

Lemma submit_enters_once st :
  grows_by (is_enter "submit_configuration") 1 st (submit_configuration st).2.
Proof.
  unfold submit_configuration.
  match goal with |- context [try_except (emit ?ev ≫= ?f) ?h] =>
    apply (enters_once _ ev _ (try_except (f tt) h)); [done..|] end.
  pose proof (grows_without_tolerates (is_enter "submit_configuration")).
  pose proof (is_enter_calm "submit_configuration").
  stable_tac.
Qed.

Lemma test_enters_once st :
  grows_by (is_enter "test_connection") 1 st (test_connection st).2.
Proof.
  unfold test_connection, test_connection_body, read_test_results.
  match goal with |- context [try_except ((emit ?ev ≫= ?f) ≫= ?g) ?h] =>
    apply (enters_once _ ev _ (try_except (f tt ≫= g) h)); [done..|] end.
  pose proof (grows_without_tolerates (is_enter "test_connection")).
  pose proof (is_enter_calm "test_connection").
  stable_tac.
Qed.

(** The events that [run] produces, from those of its mode. *)
Lemma run_grows p n config test_only skip_test st :
  calm (λ ev, negb (p ev)) →
  p (Enter "setup_driver") = false → p (Enter "login") = false →
  p (Enter "configure_smtp") = false →
  (∀ c, p (Call c) = false) →
  match run_prelude config st with
  | (Ret _, st1) => grows_by p n st1 (run_mode test_only skip_test st1).2
  | _ => n = O
  end →
  grows_by p n st (run config test_only skip_test st).2.
Proof.
  intros Hcalm H1 H2 H3 Hcall Hmode.
  pose proof (grows_without_tolerates p) as Htol.
  assert (Hpre : stable (grows_without p) (run_prelude config)).
  { eapply stable_run_prelude; eauto with stable; cbv beta;
      by rewrite ?H1, ?H2, ?H3. }
  assert (Hh : ∀ e, stable (grows_without p) (run_handler config e))
    by (intros; eauto with stable).
  assert (Hfin : stable (grows_without p) close_browser).
  { destruct Hcalm as (Hprint & Hsleep & _).
    apply close_browser_quiet; [done| |].
    - intros secs. specialize (Hsleep secs). by destruct (p (Sleep secs)).
    - specialize (Hprint (nl +:+ "[INFO] Browser closed") eq_refl).
      by destruct (p (Print _)). }
  specialize (Hpre st). unfold run, try_finally, try_except. rewrite bind_run.
  destruct (run_prelude config st) as [[[]|e|c] st1]; simpl in *.
  - destruct (run_mode test_only skip_test st1) as [[[]|e|c] st2]; simpl in *.
    + specialize (Hfin st2).
      destruct (close_browser st2) as [[[]|?|?] st3]; grows_tac.
    + specialize (Hh e st2). destruct (run_handler config e st2) as [r st3].
      specialize (Hfin st3).
      destruct (close_browser st3) as [[[]|?|?] st4]; grows_tac.
    + specialize (Hfin st2).
      destruct (close_browser st2) as [[[]|?|?] st3]; grows_tac.
  - subst n. specialize (Hh e st1). destruct (run_handler config e st1) as [r st3].
    specialize (Hfin st3).
    destruct (close_browser st3) as [[[]|?|?] st4]; grows_tac.
  - subst n. specialize (Hfin st1).
    destruct (close_browser st1) as [[[]|?|?] st3]; grows_tac.
Qed.

Lemma extends_calm : calm (λ ev, negb ((λ _ : event, false) ev)).
Proof. by repeat split. Qed.
#[local] Hint Resolve extends_calm : stable.

(** The trace of [run] extends the trace of its mode. *)
Lemma run_extends config test_only skip_test st st1 stx :
  run_prelude config st = (Ret tt, st1) →
  extends stx (run_mode test_only skip_test st1).2 →
  extends stx (run config test_only skip_test st).2.
Proof.
  intros Hpre Hmode. unfold run, try_finally, try_except.
  rewrite bind_run, Hpre.
  assert (Hh : ∀ e, stable extends (run_handler config e))
    by (intros; eauto with stable).
  assert (Hfin : stable extends close_browser)
    by (by apply close_browser_quiet).
  destruct (run_mode test_only skip_test st1) as [[[]|e|c] st2]; simpl in *.
  - specialize (Hfin st2).
    destruct (close_browser st2) as [[[]|?|?] st3]; simpl in *; by etrans.
  - specialize (Hh e st2). destruct (run_handler config e st2) as [r st3].
    specialize (Hfin st3).
    destruct (close_browser st3) as [[[]|?|?] st4]; simpl in *;
      (etrans; [exact Hmode|]); by etrans.
  - specialize (Hfin st2).
    destruct (close_browser st2) as [[[]|?|?] st3]; simpl in *; by etrans.
Qed.

(** Everything [submit_configuration] does comes after its entry. *)
Lemma submit_after_enter st :
  extends (emit (Enter "submit_configuration") st).2 (submit_configuration st).2.
Proof.
  unfold submit_configuration.
  match goal with |- context [try_except (emit ?ev ≫= ?f) ?h] =>
    refine ((_ : stable extends (try_except (f tt) h)) (emit ev st).2) end.
  pose proof (grows_without_tolerates (λ _ : event, false)).
  pose proof extends_calm. stable_tac.
Qed.

Lemma run_mode_default_submits st :
  grows_by (is_enter "submit_configuration")
    (match test_connection st with
     | (Ret test_result, _) => if truthy test_result then 1 else 0
     | _ => 0
     end) st (run_mode false false st).2.
Proof.
  unfold run_mode. rewrite bind_run.
  assert (Ht : stable (grows_without (is_enter "submit_configuration"))
                 test_connection) by eauto with stable.
  specialize (Ht st).
  destruct (test_connection st) as [[test_result|e|c] st1]; simpl in *;
    [|grows_tac..].
  destruct (truthy test_result).
  - rewrite bind_run. pose proof (submit_enters_once st1) as Hs.
    destruct (submit_configuration st1) as [[[]|e|c] st2]; exec; grows_tac.
  - exec. grows_tac.
Qed.

(** C1.  In default mode [submit_configuration] is entered exactly once
    when [run] gets as far as [test_connection] and that returns [True],
    and never otherwise: not when [test_connection] returns [False] or
    [None], nor when it is not reached.  When [test_connection] returns
    [False] or [None], [run] prints right away that the configuration was
    filled but not submitted. *)
Theorem run_default_submits_iff_test_passes config st :
  let submitted (n : nat) : Prop :=
    grows_by (is_enter "submit_configuration") n st (run config false false st).2 in
  submitted (if test_passes config st then 1 else 0)%nat ∧
  (∀ st1 st2,
     run_prelude config st = (Ret tt, st1) →
     test_connection st1 = (Ret (Some true), st2) →
     submitted 1%nat) ∧
  ∀ st1 test_result st2,
    run_prelude config st = (Ret tt, st1) →
    test_connection st1 = (Ret test_result, st2) →
    test_result = Some false ∨ test_result = None →
    submitted 0%nat ∧
    ∃ after,
      out (run config false false st).2 =
      out st2 ++
      [Print (nl +:+ rule);
       Print "[WARNING] Configuration filled but NOT submitted due to test failure";
       Print "[INFO] Review the test results and try again";
       Print rule] ++ after.
Proof.
  intros submitted.
  assert (Hcount : submitted (if test_passes config st then 1 else 0)%nat).
  { apply run_grows; [apply is_enter_calm|done..|].
    unfold test_passes. pose proof run_mode_default_submits as Hmode.
    destruct (run_prelude config st) as [[[]|e|c] st1]; [|done..].
    specialize (Hmode st1).
    by destruct (test_connection st1) as [[[[]|]|?|?] st2]. }
  split; [exact Hcount|]. split.
  - intros st1 st2 Hpre Htest. unfold test_passes in Hcount.
    by rewrite Hpre, Htest in Hcount.
  - intros st1 test_result st2 Hpre Htest Hres. split.
    + unfold test_passes in Hcount. rewrite Hpre, Htest in Hcount.
      by destruct Hres as [-> | ->].
    + cut (extends (run_mode false false st1).2 (run config false false st).2).
      { unfold run_mode. rewrite bind_run, Htest.
        assert (Hfalse : truthy test_result = false)
          by (by destruct Hres as [-> | ->]).
        rewrite Hfalse. exec.
        intros (after & E & _). exists after. rewrite E. simpl.
        by rewrite <- !app_assoc. }
      eapply run_extends; [exact Hpre|reflexivity].
Qed.

(** C4.  In skip-test mode [test_connection] is never entered.  When [run]
    gets as far as choosing its mode it prints the warning that the test is
    skipped and then enters [submit_configuration], exactly once in the
    whole run. *)
Theorem run_skip_test_submits_once config st :
  grows_by (is_enter "test_connection") 0 st (run config false true st).2 ∧
  grows_by (is_enter "submit_configuration")
    (if reaches_mode config st then 1 else 0) st (run config false true st).2 ∧
  ∀ st1,
    run_prelude config st = (Ret tt, st1) →
    grows_by (is_enter "submit_configuration") 1 st (run config false true st).2 ∧
    ∃ after,
      out (run config false true st).2 =
      out st1 ++
      [Print (nl +:+ "[WARNING] Skipping test (real printer mode)");
       Enter "submit_configuration"] ++ after.
Proof.
  assert (Hsub : grows_by (is_enter "submit_configuration")
            (if reaches_mode config st then 1 else 0) st
            (run config false true st).2).
  { apply run_grows; [apply is_enter_calm|done..|].
    unfold reaches_mode.
    destruct (run_prelude config st) as [[[]|e|c] st1]; [|done..].
    unfold run_mode. rewrite bind_run. simpl. rewrite bind_run.
    match goal with |- context [submit_configuration ?s] =>
      pose proof (submit_enters_once s) as Hs;
      destruct (submit_configuration s) as [[[]|?|?] st2] end;
      exec; grows_tac. }
  split; [|split; [exact Hsub|]].
  - apply run_grows; [apply is_enter_calm|done..|].
    destruct (run_prelude config st) as [[[]|e|c] st1]; [|done..].
    assert (Hq : stable (grows_without (is_enter "test_connection"))
                   (run_mode false true)).
    { pose proof (grows_without_tolerates (is_enter "test_connection")).
      pose proof (is_enter_calm "test_connection").
      unfold run_mode. stable_tac. }
    apply Hq.
  - intros st1 Hpre. unfold reaches_mode in Hsub. rewrite Hpre in Hsub.
    split; [exact Hsub|].
    cut (extends (emit (Enter "submit_configuration")
                    (print (nl +:+ "[WARNING] Skipping test (real printer mode)")
                       st1).2).2
           (run config false true st).2).
    { intros (after & E & _). exists after. rewrite E. simpl.
      by rewrite <- !app_assoc. }
    eapply run_extends; [exact Hpre|].
    unfold run_mode. rewrite bind_run. simpl. rewrite bind_run.
    match goal with |- context [submit_configuration ?s] =>
      pose proof (submit_after_enter s) as Hs;
      destruct (submit_configuration s) as [[[]|?|?] st2] end;
      exec; (etrans; [exact Hs|]);
      first [ reflexivity
            | eexists; split;
              [simpl; rewrite <- ?app_assoc; reflexivity|done] ].
Qed.

(** C8.  With both flags set [run] does what it does with [test_only]
    alone: when it gets as far as choosing its mode it enters
    [test_connection] (once); it never enters [submit_configuration] and
    never prints the warning that the test is skipped. *)
Theorem run_test_only_takes_precedence config st :
  run config true true st = run config true false st ∧
  grows_by (is_enter "test_connection")
    (if reaches_mode config st then 1 else 0) st (run config true true st).2 ∧
  grows_by (is_enter "submit_configuration") 0 st (run config true true st).2 ∧
  grows_by is_skip_warning 0 st (run config true true st).2.
Proof.
  split; [reflexivity|]. split; [|split].
  - apply run_grows; [apply is_enter_calm|done..|].
    unfold reaches_mode.
    destruct (run_prelude config st) as [[[]|e|c] st1]; [|done..].
    unfold run_mode. rewrite bind_run. simpl. rewrite bind_run.
    match goal with |- context [test_connection ?s] =>
      pose proof (test_enters_once s) as Ht;
      destruct (test_connection s) as [[?|?|?] st2] end;
      exec; grows_tac.
  - apply run_grows; [apply is_enter_calm|done..|].
    destruct (run_prelude config st) as [[[]|e|c] st1]; [|done..].
    refine ((_ : stable (grows_without _) (run_mode true true)) st1).
    pose proof (grows_without_tolerates (is_enter "submit_configuration")).
    pose proof (is_enter_calm "submit_configuration").
    unfold run_mode. stable_tac.
  - apply run_grows; [apply is_skip_warning_calm|done..|].
    destruct (run_prelude config st) as [[[]|e|c] st1]; [|done..].
    refine ((_ : stable (grows_without _) (run_mode true true)) st1).
    pose proof (grows_without_tolerates is_skip_warning).
    pose proof is_skip_warning_calm.
    unfold run_mode. stable_tac.
Qed.

(** ** The device password (C5) *)

Lemma no_exit_print line : no_exit (print line).
Proof. by intros st. Qed.

Lemma no_exit_getitem {V} (d : gmap string V) key : no_exit (getitem d key).
Proof. intros st. unfold getitem. by destruct (d !! key). Qed.

Lemma no_exit_self_driver attr : no_exit (self_driver attr).
Proof. intros st. unfold self_driver. by destruct (driver st). Qed.

Lemma no_exit_lift {A} (r : reply A) : no_exit (lift r).
Proof. intros st. by destruct r. Qed.

Lemma no_exit_browser {A} c (op : W → reply A * W) : no_exit (browser c op).
Proof. intros st. unfold browser. by destruct (op (world st)) as [[?|?] ?]. Qed.

Lemma no_exit_bind {A B} (m : M A) (f : A → M B) :
  no_exit m → (∀ a, no_exit (f a)) → no_exit (m ≫= f).
Proof.
  intros Hm Hf st. specialize (Hm st). rewrite bind_run.
  destruct (m st) as [[a|e|c] st1]; simpl in *; [apply Hf|done..].
Qed.

(** The [try] block of the device password step. *)
Lemma no_exit_device_password_try (creds : gmap string pyval) :
  no_exit
    (d ← self_driver "find_elements";
     all_password_fields ← find_all d (CSS_SELECTOR, "input[type='password']");
     let password_field :=
       if (2 <=? length all_password_fields)%nat then last all_password_fields
       else if (length all_password_fields =? 1)%nat then all_password_fields !! 0%nat
       else None in
     match password_field with
     | Some password_field =>
         clear password_field;;
         password ← getitem creds "password";
         send_keys password_field password;;
         password ← getitem creds "password";
         n ← lift (py_len password);
         print ("  [OK] Device Password: " +:+ string_mul "*" n)
     | None =>
         print "  [WARNING] Could not find device password field"
     end).
Proof.
  unfold find_all, clear, send_keys.
  repeat first
    [ apply no_exit_bind; [|intros ?]
    | apply no_exit_self_driver | apply no_exit_browser | apply no_exit_getitem
    | apply no_exit_lift | apply no_exit_print
    | match goal with |- no_exit (match ?x with _ => _ end) => destruct x end
    | progress cbv zeta ].
Qed.

(** C5.  In [configure_smtp] the step that sets the device password looks
    up the password inputs.  With two or more it clears the last one and
    types the password there (with exactly two: the second); with exactly
    one, it uses that one; with none it prints a warning and writes
    nothing.  Whatever happens, the step returns normally: it never aborts
    [configure_smtp].  (After typing, the step prints a confirmation, or a
    warning when the password is not a string and has no length.) *)
Theorem device_password_goes_to_last_field creds st d fields w1 :
  driver st = Some d →
  find_elements d (CSS_SELECTOR, "input[type='password']") (world st)
    = (Returns fields, w1) →
  let found := Call (CFindElements d (CSS_SELECTOR, "input[type='password']")) in
  let writes_to (field : elem) : Prop :=
    ∀ password w2 w3,
      elem_clear field w1 = (Returns tt, w2) →
      creds !! "password" = Some password →
      elem_send_keys field password w2 = (Returns tt, w3) →
      fill_device_password creds st =
      (Ret tt,
       State w3 (fs st)
         (out st ++ [found; Call (CClear field); Call (CSendKeys field password);
                     Print (match py_len password with
                            | Returns n => "  [OK] Device Password: " +:+ string_mul "*" n
                            | Raises e =>
                                "  [WARNING] Could not set device password: "
                                +:+ exn_msg e
                            end)])
         (driver st)) in
  (∀ st0, ∃ st0', fill_device_password creds st0 = (Ret tt, st0')) ∧
  ((2 ≤ length fields)%nat → ∃ field, last fields = Some field ∧ writes_to field) ∧
  (∀ first second, fields = [first; second] → writes_to second) ∧
  (∀ only, fields = [only] → writes_to only) ∧
  (fields = [] →
   fill_device_password creds st =
   (Ret tt,
    State w1 (fs st)
      (out st ++ [found; Print "  [WARNING] Could not find device password field"])
      (driver st))).
Proof.
  intros Hd Hfind found writes_to.
  assert (Hstart : ∀ k : list elem → M unit,
    try_except
      (d ← self_driver "find_elements";
       all_password_fields ← find_all d (CSS_SELECTOR, "input[type='password']");
       k all_password_fields)
      (λ e, print ("  [WARNING] Could not set device password: " +:+ exn_msg e)) st =
    try_except (k fields)
      (λ e, print ("  [WARNING] Could not set device password: " +:+ exn_msg e))
      (State w1 (fs st) (out st ++ [found]) (driver st))).
  { intros k. unfold try_except. rewrite bind_run. unfold self_driver at 1.
    rewrite Hd. rewrite bind_run. unfold find_all, browser at 1.
    rewrite Hfind. simpl. by rewrite ?Hd. }
  assert (Hwrite : ∀ field,
    (if (2 <=? length fields)%nat then last fields
     else if (length fields =? 1)%nat then fields !! 0%nat else None) = Some field →
    writes_to field).
  { intros field Hsel password w2 w3 Hclear Hpw Hsend.
    unfold fill_device_password. rewrite Hstart. cbv zeta. rewrite Hsel.
    unfold try_except, clear, send_keys, browser, getitem, lift.
    rewrite bind_run. simpl. rewrite Hclear. simpl.
    rewrite Hpw. exec. rewrite Hsend. exec.
    destruct (py_len password) as [n|e]; simpl;
      unfold print, emit; simpl; by rewrite <- !app_assoc. }
  split; [|split; [|split; [|split]]].
  - intros st0. unfold fill_device_password, try_except.
    pose proof (no_exit_device_password_try creds st0) as Hne.
    match type of Hne with context [(?m st0).1] =>
      destruct (m st0) as [[[]|e|c] st1] end; simpl in Hne; [by eauto| |done].
    by eexists.
  - intros Hlen. destruct (last fields) as [field|] eqn:Hlast.
    + exists field. split; [done|]. apply Hwrite.
      by destruct (2 <=? length fields)%nat eqn:E; [|apply Nat.leb_gt in E; lia].
    + apply last_None in Hlast. subst fields. simpl in Hlen. lia.
  - intros first second ->. by apply Hwrite.
  - intros only ->. by apply Hwrite.
  - intros ->. unfold fill_device_password. rewrite Hstart. simpl.
    unfold try_except, print, emit. simpl. by rewrite <- !app_assoc.
Qed.

(** ** What ends the process *)

Lemma no_exit_ret {A} (a : A) : no_exit (mret a : M A).
Proof. by intros st. Qed.

Lemma no_exit_raise {A} e : no_exit (raise e : M A).
Proof. by intros st. Qed.

Lemma no_exit_emit ev : no_exit (emit ev).
Proof. by intros st. Qed.

Lemma no_exit_sleep secs : no_exit (sleep secs).
Proof. by intros st. Qed.

Lemma no_exit_set_driver d : no_exit (set_driver d).
Proof. by intros st. Qed.

Lemma no_exit_try_except {A} (m : M A) h :
  no_exit m → (∀ e, no_exit (h e)) → no_exit (try_except m h).
Proof.
  intros Hm Hh st. specialize (Hm st). unfold try_except.
  destruct (m st) as [[a|e|c] st1]; simpl in *; [done|apply Hh|done].
Qed.

Lemma no_exit_take_screenshot name : no_exit (_take_screenshot name).
Proof.
  intros st. unfold _take_screenshot. destruct (driver st) as [d|]; [|done].
  cbv zeta. rewrite bind_run. unfold browser.
  by destruct (save_screenshot d _ (world st)) as [[?|?] ?].
Qed.

Lemma no_exit_close_browser : no_exit close_browser.
Proof.
  intros st. unfold close_browser. destruct (driver st) as [d|]; [|done].
  rewrite bind_run. simpl. rewrite bind_run. unfold browser. simpl.
  by destruct (driver_quit d _) as [[[]|?] ?].
Qed.

Create HintDb no_exit.
#[local] Hint Resolve no_exit_ret no_exit_raise no_exit_emit no_exit_sleep
  no_exit_set_driver no_exit_print no_exit_getitem no_exit_self_driver no_exit_lift
  no_exit_browser no_exit_take_screenshot no_exit_close_browser : no_exit.

Ltac no_exit_step :=
  first
    [ solve [eauto with no_exit]
    | lazymatch goal with
      | |- no_exit (_ ≫= _) => apply no_exit_bind; [|intros ?]
      | |- no_exit (try_except _ _) => apply no_exit_try_except; [|intros ?]
      | |- no_exit (if ?b then _ else _) => destruct b
      | |- no_exit (match ?x with _ => _ end) => destruct x
      | |- no_exit (let _ := _ in _) => cbv zeta
      | |- no_exit _ =>
          progress unfold Chrome, get, until_present, find, find_all, clear,
            send_keys, click, text, get_attribute, Select, select_value
      end ].

Ltac no_exit_tac := repeat no_exit_step.

Lemma no_exit_login config : no_exit (login config).
Proof. unfold login. no_exit_tac. Qed.

Lemma no_exit_port_loop smtp fields : no_exit (port_loop smtp fields).
Proof.
  induction fields as [|field rest IH]; simpl; [auto with no_exit|]. no_exit_tac.
Qed.

Lemma no_exit_userid_loop creds fields : no_exit (userid_loop creds fields).
Proof.
  induction fields as [|field rest IH]; simpl; [auto with no_exit|]. no_exit_tac.
Qed.

Lemma no_exit_click_first needle buttons : no_exit (click_first needle buttons).
Proof.
  induction buttons as [|button rest IH]; simpl; [auto with no_exit|]. no_exit_tac.
Qed.
#[local] Hint Resolve no_exit_login no_exit_port_loop no_exit_userid_loop
  no_exit_click_first : no_exit.

Lemma no_exit_configure_smtp config : no_exit (configure_smtp config).
Proof.
  unfold configure_smtp, fill_gateway, fill_port, fill_reply_address,
    fill_dropdowns, fill_userid, fill_device_password.
  no_exit_tac.
Qed.

Lemma no_exit_test_connection : no_exit test_connection.
Proof.
  unfold test_connection, test_connection_body, read_test_results. no_exit_tac.
Qed.

Lemma no_exit_submit_configuration : no_exit submit_configuration.
Proof. unfold submit_configuration. no_exit_tac. Qed.
#[local] Hint Resolve no_exit_configure_smtp no_exit_test_connection
  no_exit_submit_configuration : no_exit.

Lemma no_exit_run_mode test_only skip_test : no_exit (run_mode test_only skip_test).
Proof. unfold run_mode. no_exit_tac. Qed.

Lemma no_exit_run_handler config e : no_exit (run_handler config e).
Proof. unfold run_handler. no_exit_tac. Qed.
#[local] Hint Resolve no_exit_run_mode no_exit_run_handler : no_exit.

(** A computation that does not end the process does not. *)
Lemma no_exit_elim {A} (m : M A) st c : no_exit m → (m st).1 ≠ SystemExit c.
Proof. intros Hm E. specialize (Hm st). by rewrite E in Hm. Qed.

Lemma run_prelude_after_banner config st :
  run_prelude config st =
  (setup_driver config;; login config;; configure_smtp config) (after_banner st).
Proof.
  unfold run_prelude, after_banner. do 3 (rewrite bind_run; simpl).
  by rewrite <- !app_assoc.
Qed.

(** [setup_driver] ends the process with status 1 only. *)
Lemma setup_driver_exit_code config st c :
  (setup_driver config st).1 = SystemExit c → c = 1.
Proof.
  unfold setup_driver. rewrite bind_run. simpl. rewrite bind_run.
  unfold getitem at 1. destruct (config !! "settings") as [settings|]; [|done].
  simpl. unfold try_except.
  match goal with |- context [match ?m ?s with _ => _ end] =>
    assert (Hne : no_exit m) by no_exit_tac;
    specialize (Hne s); destruct (m s) as [[[]|e|c'] st1] end; simpl in *;
    [done| |done].
  exec. congruence.
Qed.

(** [run] ends the process only because [setup_driver] did. *)
Lemma run_exit_is_setup_exit config test_only skip_test st c :
  (run config test_only skip_test st).1 = SystemExit c →
  c = 1 ∧ (setup_driver config (after_banner st)).1 = SystemExit 1.
Proof.
  unfold run, try_finally, try_except. rewrite bind_run, run_prelude_after_banner.
  rewrite bind_run.
  pose proof (setup_driver_exit_code config (after_banner st)) as Hcode.
  destruct (setup_driver config (after_banner st)) as [[[]|e|c0] st1] eqn:Es;
    simpl in *.
  - intros E. exfalso. revert E.
    match goal with |- context [match ?m st1 with _ => _ end] =>
      pose proof (no_exit_elim m st1) as Hne;
      assert (Hm : no_exit m) by no_exit_tac;
      specialize (λ c, Hne c Hm); destruct (m st1) as [[[]|e|c1] st2] end;
      simpl in *.
    + pose proof (no_exit_elim (run_mode test_only skip_test) st2) as Hmode.
      specialize (λ c, Hmode c (no_exit_run_mode _ _)).
      destruct (run_mode test_only skip_test st2) as [[[]|e|c2] st3]; simpl in *.
      * pose proof (no_exit_close_browser st3) as Hc.
        by destruct (close_browser st3) as [[[]|?|?] ?].
      * pose proof (no_exit_run_handler config e st3) as Hh.
        destruct (run_handler config e st3) as [[[]|?|?] st4]; simpl in *;
          try done;
          pose proof (no_exit_close_browser st4) as Hc;
          by destruct (close_browser st4) as [[[]|?|?] ?].
      * by destruct (Hmode c2).
    + pose proof (no_exit_run_handler config e st2) as Hh.
      destruct (run_handler config e st2) as [[[]|?|?] st4]; simpl in *;
        try done;
        pose proof (no_exit_close_browser st4) as Hc;
        by destruct (close_browser st4) as [[[]|?|?] ?].
    + by destruct (Hne c1).
  - intros E. exfalso. revert E.
    pose proof (no_exit_run_handler config e st1) as Hh.
    destruct (run_handler config e st1) as [[[]|?|?] st4]; simpl in *;
      try done;
      pose proof (no_exit_close_browser st4) as Hc;
      by destruct (close_browser st4) as [[[]|?|?] ?].
  - rewrite (Hcode c0 eq_refl) in *.
    pose proof (no_exit_close_browser st1) as Hc.
    destruct (close_browser st1) as [[[]|?|?] ?]; simpl in *; try done.
    by intros [= <-].
Qed.

(** ** Failures of the steps *)

#[local] Hint Resolve stable_port_loop stable_userid_loop : stable.

(** The [except] block shared by [login], [configure_smtp] and
    [submit_configuration]: print, take a screenshot, raise again. *)
Lemma report_and_raise {A} (body : M A) prefix name st e' st' :
  try_except body
    (λ e, print (prefix +:+ exn_msg e);; _take_screenshot name;; raise e) st
    = (Raise e', st') →
  ∃ e st1 more,
    body st = (Raise e, st1) ∧
    out st' = out st1 ++ Print (prefix +:+ exn_msg e) :: more ∧
    (e' = e ∨
     ∃ d w w', save_screenshot d (screenshot_path name w) w = (Raises e', w')).
Proof.
  unfold try_except. destruct (body st) as [[a|e|c] st1] eqn:Eb; [done| |done].
  rewrite bind_run. simpl. rewrite bind_run. unfold _take_screenshot. simpl.
  destruct (driver st1) as [d|].
  - cbv zeta. rewrite bind_run. unfold browser. simpl.
    destruct (save_screenshot d _ (world st1)) as [[b|e2] w2] eqn:Es; simpl.
    + intros [= <- <-]. exists e, st1. eexists. split; [done|]. simpl.
      rewrite <- !app_assoc. simpl. eauto.
    + intros [= <- <-]. exists e, st1. eexists. split; [done|]. simpl.
      rewrite <- !app_assoc. simpl. eauto 10.
  - intros [= <- <-]. exists e, st1, []. simpl. eauto.
Qed.

(** X2.  A step that fails has said so: when [login], [configure_smtp] or
    [submit_configuration] raises, the trace holds its error line with the
    message of an exception [e]; the exception that leaves the step is
    [e] itself, unless saving the error screenshot raised. *)
Theorem step_failures_are_reported config st e' st' :
  let reported (step : M unit) (prefix name : string) : Prop :=
    step st = (Raise e', st') →
    ∃ e before more,
      out st' = out st ++ before ++ Print (prefix +:+ exn_msg e) :: more ∧
      (e' = e ∨
       ∃ d w w', save_screenshot d (screenshot_path name w) w = (Raises e', w')) in
  reported (login config) "[ERROR] Login failed: " "error_login_failed" ∧
  reported (configure_smtp config) "[ERROR] Configuration failed: "
    "error_config_failed" ∧
  reported submit_configuration "[ERROR] Submit failed: " "error_submit_failed".
Proof.
  intros reported.
  assert (Hgen : ∀ (body : M unit) prefix name,
    stable extends body →
    reported
      (try_except body
         (λ e, print (prefix +:+ exn_msg e);; _take_screenshot name;; raise e))
      prefix name).
  { intros body prefix name Hbody Hstep.
    apply report_and_raise in Hstep as (e & st1 & more & Eb & Eout & He).
    specialize (Hbody st). rewrite Eb in Hbody.
    destruct Hbody as (before & E1 & _). simpl in E1.
    exists e, before, more. by rewrite Eout, E1, <- app_assoc. }
  pose proof (grows_without_tolerates (λ _ : event, false)).
  pose proof extends_calm.
  repeat split; apply Hgen;
    try unfold fill_gateway, fill_port, fill_reply_address, fill_dropdowns,
      fill_userid;
    stable_tac.
Qed.

(** ** Starting the browser *)

(** X3.  When the configuration has a settings section and Chrome starts,
    [setup_driver] keeps the new session in [self.driver], sets its
    implicit wait to [wait_timeout], or to 10 when that key is missing, and
    reports the success.  Chrome is started with "--headless" first when
    the [headless] setting is true and never when the key is missing; the
    three fixed arguments always follow. *)
Theorem setup_driver_starts_session config settings st d w1 w2 :
  config !! "settings" = Some settings →
  chrome (chrome_options settings) (world st) = (Returns d, w1) →
  let timeout := default (VInt 10) (settings !! "wait_timeout") in
  implicitly_wait d timeout w1 = (Returns tt, w2) →
  setup_driver config st =
  (Ret tt,
   State w2 (fs st)
     (out st ++ [Enter "setup_driver";
                 Call (CChrome (chrome_options settings));
                 Call (CImplicitlyWait d timeout);
                 Print "[SUCCESS] WebDriver initialized"])
     (Some d)) ∧
  (settings !! "wait_timeout" = None → timeout = VInt 10) ∧
  (∀ v, settings !! "headless" = Some v →
     chrome_options settings =
     (if py_bool v then ["--headless"] else [])
     ++ ["--no-sandbox"; "--disable-dev-shm-usage"; "--window-size=1920,1080"]) ∧
  (settings !! "headless" = None →
   chrome_options settings =
   ["--no-sandbox"; "--disable-dev-shm-usage"; "--window-size=1920,1080"]).
Proof.
  intros Hs Hc timeout Hw. repeat split.
  - unfold setup_driver. rewrite bind_run. simpl. rewrite bind_run.
    unfold getitem at 1. rewrite Hs. simpl.
    unfold try_except, Chrome. rewrite bind_run. unfold browser at 1. simpl.
    rewrite Hc. simpl. exec. unfold getitem. rewrite Hs. exec.
    unfold browser. simpl. fold timeout. rewrite Hw. simpl.
    unfold print, emit. simpl. by rewrite <- !app_assoc.
  - intros E. subst timeout. by rewrite E.
  - intros v E. unfold chrome_options. by rewrite E.
  - intros E. unfold chrome_options. by rewrite E.
Qed.

(** X4.  When Chrome cannot be started, or the implicit wait cannot be
    set, [setup_driver] prints the reason and a hint and ends the process
    with [exit(1)].  In the first case [self.driver] is untouched; in the
    second it holds the session that was started. *)
Theorem setup_driver_failure_exits config settings st :
  config !! "settings" = Some settings →
  let started := [Enter "setup_driver"; Call (CChrome (chrome_options settings))] in
  let failed (e : exn) :=
    [Print ("[ERROR] Failed to initialize WebDriver: " +:+ exn_msg e);
     Print "[INFO] Make sure Chrome and ChromeDriver are installed"] in
  (∀ e w1,
     chrome (chrome_options settings) (world st) = (Raises e, w1) →
     setup_driver config st =
     (SystemExit 1,
      State w1 (fs st) (out st ++ started ++ failed e) (driver st))) ∧
  (∀ d w1 e w2,
     chrome (chrome_options settings) (world st) = (Returns d, w1) →
     let timeout := default (VInt 10) (settings !! "wait_timeout") in
     implicitly_wait d timeout w1 = (Raises e, w2) →
     setup_driver config st =
     (SystemExit 1,
      State w2 (fs st)
        (out st ++ started ++ [Call (CImplicitlyWait d timeout)] ++ failed e)
        (Some d))).
Proof.
  intros Hs started failed. split.
  - intros e w1 Hc.
    unfold setup_driver. rewrite bind_run. simpl. rewrite bind_run.
    unfold getitem at 1. rewrite Hs. simpl.
    unfold try_except, Chrome. rewrite bind_run. unfold browser at 1. simpl.
    rewrite Hc. simpl. exec. unfold sys_exit. by rewrite <- !app_assoc.
  - intros d w1 e w2 Hc timeout Hw.
    unfold setup_driver. rewrite bind_run. simpl. rewrite bind_run.
    unfold getitem at 1. rewrite Hs. simpl.
    unfold try_except, Chrome. rewrite bind_run. unfold browser at 1. simpl.
    rewrite Hc. simpl. exec. unfold getitem. rewrite Hs. exec.
    unfold browser. simpl. fold timeout. rewrite Hw. simpl.
    exec. unfold sys_exit. by rewrite <- !app_assoc.
Qed.

(** X5.  With a configuration that has no settings section, a fresh
    configurator never reaches the browser: [setup_driver] raises
    KeyError, the [except] block of [run] prints it and then raises
    KeyError itself when it looks up the same section, and that exception
    leaves [run]; no session exists, so nothing is closed. *)
Theorem run_without_settings_raises config test_only skip_test st :
  config !! "settings" = None →
  driver st = None →
  run config test_only skip_test st =
  (Raise (Exn KeyError "'settings'"),
   State (world st) (fs st)
     (out (after_banner st)
      ++ [Enter "setup_driver";
          Print (nl +:+ "[ERROR] Automation failed: " +:+ "'settings'")])
     None).
Proof.
  intros Hs Hd. unfold run, try_finally, try_except.
  rewrite bind_run, run_prelude_after_banner. rewrite bind_run.
  unfold setup_driver. rewrite bind_run. simpl. rewrite bind_run.
  unfold getitem at 1. rewrite Hs. simpl.
  unfold run_handler. rewrite bind_run. simpl. rewrite bind_run.
  unfold getitem. rewrite Hs. simpl. unfold close_browser. simpl.
  rewrite Hd. simpl. by rewrite <- !app_assoc.
Qed.

(** ** How [run] ends *)

(** X6.  A failed step does not make [run] fail.  When the [try] block of
    [run] raises [e] with a session open, [run] prints the failure, takes
    the screenshot "error_final" unless [screenshot_on_failure] is set to a
    false value (it is on by default), closes the browser and returns
    normally: the exit status of the process is 0. *)
Theorem run_failure_returns_normally config test_only skip_test st e st1
    settings d b w2 w3 :
  (run_prelude config;; run_mode test_only skip_test) st = (Raise e, st1) →
  config !! "settings" = Some settings →
  driver st1 = Some d →
  let wanted := py_bool (default (VBool true) (settings !! "screenshot_on_failure")) in
  (if wanted
   then save_screenshot d (screenshot_path "error_final" (world st1)) (world st1)
        = (Returns b, w2)
   else w2 = world st1) →
  driver_quit d (time_sleep 2 w2) = (Returns tt, w3) →
  run config test_only skip_test st =
  (Ret tt,
   State w3 (fs st1)
     (out st1
      ++ [Print (nl +:+ "[ERROR] Automation failed: " +:+ exn_msg e)]
      ++ (if wanted then screenshot_events d "error_final" (world st1) else [])
      ++ [Sleep 2; Call (CQuit d); Print (nl +:+ "[INFO] Browser closed")])
     (Some d)) ∧
  exit_status (run config test_only skip_test st).1 = 0.
Proof.
  intros Hbody Hs Hd wanted Hshot Hquit.
  assert (Hrun : run config test_only skip_test st =
    (Ret tt,
     State w3 (fs st1)
       (out st1
        ++ [Print (nl +:+ "[ERROR] Automation failed: " +:+ exn_msg e)]
        ++ (if wanted then screenshot_events d "error_final" (world st1) else [])
        ++ [Sleep 2; Call (CQuit d); Print (nl +:+ "[INFO] Browser closed")])
       (Some d))).
  { unfold run, try_finally, try_except. rewrite Hbody.
    unfold run_handler. rewrite bind_run. simpl. rewrite bind_run.
    unfold getitem. rewrite Hs. simpl. fold wanted.
    destruct wanted.
    - erewrite take_screenshot_ok by (simpl; eassumption). simpl.
      unfold close_browser. simpl. rewrite Hd.
      rewrite bind_run. simpl. rewrite bind_run. unfold browser. simpl.
      rewrite Hquit. simpl. by rewrite <- !app_assoc.
    - subst w2. simpl. unfold close_browser. simpl. rewrite Hd.
      rewrite bind_run. simpl. rewrite bind_run. unfold browser. simpl.
      rewrite Hquit. simpl. by rewrite <- !app_assoc. }
  split; [exact Hrun|]. by rewrite Hrun.
Qed.

(** X7.  Nothing is asked of a closed browser: in every run that ends with
    a session in [self.driver], the call of [quit] on it is the last call
    to the browser; after it [run] prints at most that the browser is
    closed. *)
Theorem run_calls_nothing_after_quit config test_only skip_test st d :
  driver (run config test_only skip_test st).2 = Some d →
  ∃ before after,
    produces (run config test_only skip_test) st
      (before ++ [Sleep 2; Call (CQuit d)] ++ after) ∧
    (after = [] ∨ after = [Print (nl +:+ "[INFO] Browser closed")]) ∧
    count is_call after = O.
Proof.
  unfold run, produces.
  match goal with |- context [try_finally ?b close_browser] => set (body := b) end.
  assert (Hq : quiet is_quit body).
  { subst body. unfold quiet, run_mode.
    pose proof (grows_without_tolerates is_quit). pose proof is_quit_calm.
    stable_tac. }
  destruct (Hq st) as (evs & Eb & Cb). clearbody body.
  pose proof (close_browser_same_driver (body st).2) as Hsame.
  pose proof (close_browser_produces (body st).2) as Hfin.
  unfold same_driver, produces in *. unfold try_finally.
  destruct (body st) as [r st1]. simpl in *.
  destruct (close_browser st1) as [[[]|e2|c2] st2]; simpl in *;
    rewrite Hsame; destruct (driver st1) as [d'|]; try done.
  all: intros [= ->]; destruct Hfin as (after & Ef & Ha); exists evs, after;
    (split; [by rewrite Ef, Eb, <- app_assoc|]);
    split; [done|]; by destruct Ha as [-> | ->].
Qed.

(** ** The order of the steps *)

Lemma setup_enters_once config st :
  grows_by (is_enter "setup_driver") 1 st (setup_driver config st).2.
Proof.
  unfold setup_driver.
  match goal with |- context [emit ?ev ≫= ?f] =>
    apply (enters_once _ ev _ (f tt)); [done..|] end.
  pose proof (grows_without_tolerates (is_enter "setup_driver")).
  pose proof (is_enter_calm "setup_driver").
  stable_tac.
Qed.

Lemma login_enters_once config st :
  grows_by (is_enter "login") 1 st (login config st).2.
Proof.
  unfold login.
  match goal with |- context [try_except (emit ?ev ≫= ?f) ?h] =>
    apply (enters_once _ ev _ (try_except (f tt) h)); [done..|] end.
  pose proof (grows_without_tolerates (is_enter "login")).
  pose proof (is_enter_calm "login").
  stable_tac.
Qed.

Lemma configure_enters_once config st :
  grows_by (is_enter "configure_smtp") 1 st (configure_smtp config st).2.
Proof.
  unfold configure_smtp.
  match goal with |- context [try_except (emit ?ev ≫= ?f) ?h] =>
    apply (enters_once _ ev _ (try_except (f tt) h)); [done..|] end.
  pose proof (grows_without_tolerates (is_enter "configure_smtp")).
  pose proof (is_enter_calm "configure_smtp").
  unfold fill_gateway, fill_port, fill_reply_address, fill_dropdowns,
    fill_userid.
  stable_tac.
Qed.

(** The [except] and [finally] blocks of [run] enter no method. *)
Lemma run_enters name n config test_only skip_test st :
  grows_by (is_enter name) n st
    ((run_prelude config;; run_mode test_only skip_test) st).2 →
  grows_by (is_enter name) n st (run config test_only skip_test st).2.
Proof.
  intros Hbody.
  pose proof (grows_without_tolerates (is_enter name)) as Htol.
  pose proof (is_enter_calm name) as Hcalm.
  assert (Hh : ∀ e, stable (grows_without (is_enter name)) (run_handler config e))
    by (intros; eauto with stable).
  assert (Hfin : stable (grows_without (is_enter name)) close_browser)
    by (by apply close_browser_quiet).
  unfold run, try_finally, try_except.
  destruct ((run_prelude config;; run_mode test_only skip_test) st)
    as [[[]|e|c] st1]; simpl in *.
  - specialize (Hfin st1).
    destruct (close_browser st1) as [[[]|?|?] st2]; grows_tac.
  - specialize (Hh e st1). destruct (run_handler config e st1) as [r st2].
    specialize (Hfin st2).
    destruct (close_browser st2) as [[[]|?|?] st3]; grows_tac.
  - specialize (Hfin st1).
    destruct (close_browser st1) as [[[]|?|?] st2]; grows_tac.
Qed.

(** X18.  [run] takes its steps in order and stops at the first that
    fails: whatever the flags, [setup_driver] is entered exactly once;
    [login] once when [setup_driver] returned and never otherwise;
    [configure_smtp] once when [login] returned as well and never
    otherwise; [test_connection] once when all three returned, unless the
    test is skipped ([skip_test] without [test_only]), and never
    otherwise. *)
Theorem run_steps_in_order config test_only skip_test st :
  let entered (name : string) (n : nat) : Prop :=
    grows_by (is_enter name) n st (run config test_only skip_test st).2 in
  entered "setup_driver" 1%nat ∧
  entered "login"
    (match setup_driver config (after_banner st) with
     | (Ret _, _) => 1
     | _ => 0
     end)%nat ∧
  entered "configure_smtp"
    (match setup_driver config (after_banner st) with
     | (Ret _, st1) => match login config st1 with (Ret _, _) => 1 | _ => 0 end
     | _ => 0
     end)%nat ∧
  entered "test_connection"
    (if reaches_mode config st && (test_only || negb skip_test) then 1 else 0)%nat.
Proof.
  intros entered. subst entered. cbv beta.
  assert (Hbanner : ∀ name, grows_by (is_enter name) 0 st (after_banner st))
    by (intros name; eexists; split; [reflexivity|done]).
  assert (Hquiet : ∀ name,
    (String.eqb name "setup_driver" = false →
     stable (grows_without (is_enter name)) (setup_driver config)) ∧
    (String.eqb name "login" = false →
     stable (grows_without (is_enter name)) (login config)) ∧
    (String.eqb name "configure_smtp" = false →
     stable (grows_without (is_enter name)) (configure_smtp config)) ∧
    (String.eqb name "test_connection" = false →
     String.eqb name "submit_configuration" = false →
     stable (grows_without (is_enter name)) (run_mode test_only skip_test))).
  { intros name.
    pose proof (grows_without_tolerates (is_enter name)) as Htol.
    pose proof (is_enter_calm name) as Hcalm.
    repeat split.
    - intros Hn. eapply stable_setup_driver; eauto with stable.
      simpl. by rewrite Hn.
    - intros Hn. eapply stable_login; eauto with stable. simpl. by rewrite Hn.
    - intros Hn. eapply stable_configure_smtp; eauto with stable.
      simpl. by rewrite Hn.
    - intros Hn1 Hn2.
      assert (stable (grows_without (is_enter name)) test_connection)
        by (eapply stable_test_connection; eauto with stable; simpl;
            by rewrite Hn1).
      assert (stable (grows_without (is_enter name)) submit_configuration)
        by (eapply stable_submit_configuration; eauto with stable; simpl;
            by rewrite Hn2).
      unfold run_mode. stable_tac. }
  split; [|split; [|split]].
  - apply run_enters. rewrite bind_run, run_prelude_after_banner.
    specialize (Hbanner "setup_driver").
    destruct (Hquiet "setup_driver") as (_ & Hl & Hc & Hm).
    specialize (Hl eq_refl). specialize (Hc eq_refl).
    specialize (Hm eq_refl eq_refl).
    remember (after_banner st) as st0 eqn:E0. clear E0.
    pose proof (setup_enters_once config st0) as Hs. rewrite !bind_run.
    destruct (setup_driver config st0) as [[[]|e|c] st1]; simpl in *;
      [rewrite ?bind_run|grows_tac..].
    specialize (Hl st1).
    destruct (login config st1) as [[[]|e|c] st2]; simpl in *;
      [rewrite ?bind_run|grows_tac..].
    specialize (Hc st2).
    destruct (configure_smtp config st2) as [[[]|e|c] st3]; simpl in *;
      [|grows_tac..].
    specialize (Hm st3). grows_tac.
  - apply run_enters. rewrite bind_run, run_prelude_after_banner.
    specialize (Hbanner "login").
    destruct (Hquiet "login") as (Hs & _ & Hc & Hm).
    specialize (Hs eq_refl). specialize (Hc eq_refl).
    specialize (Hm eq_refl eq_refl).
    remember (after_banner st) as st0 eqn:E0. clear E0.
    specialize (Hs st0). rewrite !bind_run.
    destruct (setup_driver config st0) as [[[]|e|c] st1]; simpl in *;
      [rewrite ?bind_run|grows_tac..].
    pose proof (login_enters_once config st1) as Hl.
    destruct (login config st1) as [[[]|e|c] st2]; simpl in *;
      [rewrite ?bind_run|grows_tac..].
    specialize (Hc st2).
    destruct (configure_smtp config st2) as [[[]|e|c] st3]; simpl in *;
      [|grows_tac..].
    specialize (Hm st3). grows_tac.
  - apply run_enters. rewrite bind_run, run_prelude_after_banner.
    specialize (Hbanner "configure_smtp").
    destruct (Hquiet "configure_smtp") as (Hs & Hl & _ & Hm).
    specialize (Hs eq_refl). specialize (Hl eq_refl).
    specialize (Hm eq_refl eq_refl).
    remember (after_banner st) as st0 eqn:E0. clear E0.
    specialize (Hs st0). rewrite !bind_run.
    destruct (setup_driver config st0) as [[[]|e|c] st1]; simpl in *;
      [rewrite ?bind_run|grows_tac..].
    specialize (Hl st1).
    destruct (login config st1) as [[[]|e|c] st2]; simpl in *;
      [rewrite ?bind_run|grows_tac..].
    pose proof (configure_enters_once config st2) as Hc.
    destruct (configure_smtp config st2) as [[[]|e|c] st3]; simpl in *;
      [|grows_tac..].
    specialize (Hm st3). grows_tac.
  - apply run_grows; [apply is_enter_calm|done..|].
    unfold reaches_mode.
    destruct (run_prelude config st) as [[[]|e|c] st1]; [|done..].
    pose proof (grows_without_tolerates (is_enter "test_connection")).
    pose proof (is_enter_calm "test_connection").
    assert (Hsub : stable (grows_without (is_enter "test_connection"))
                     submit_configuration) by eauto with stable.
    destruct test_only, skip_test; simpl.
    + unfold run_mode. rewrite bind_run. simpl. rewrite bind_run.
      match goal with |- context [test_connection ?s] =>
        pose proof (test_enters_once s) as Ht;
        destruct (test_connection s) as [[?|?|?] st2] end;
        exec; grows_tac.
    + unfold run_mode. rewrite bind_run. simpl. rewrite bind_run.
      match goal with |- context [test_connection ?s] =>
        pose proof (test_enters_once s) as Ht;
        destruct (test_connection s) as [[?|?|?] st2] end;
        exec; grows_tac.
    + refine ((_ : stable (grows_without _) (run_mode false true)) st1).
      unfold run_mode. stable_tac.
    + unfold run_mode. rewrite bind_run.
      pose proof (test_enters_once st1) as Ht.
      destruct (test_connection st1) as [[test_result|?|?] st2]; simpl in *;
        [|grows_tac..].
      destruct (truthy test_result).
      * rewrite bind_run. specialize (Hsub st2).
        destruct (submit_configuration st2) as [[[]|?|?] st3]; exec; grows_tac.
      * exec. grows_tac.
Qed.

(** ** The loops over the elements of the page *)

(** X8.  The button loop of [test_connection] and [submit_configuration]
    stops at the first button whose lower-cased text contains the word: it
    reads the texts of the buttons before it, clicks that button and
    nothing else, and neither reads nor clicks the buttons after it.  If
    the click raises, the exception is the outcome of the loop. *)
Theorem click_first_clicks_first_match needle (before : list elem) button rest
    st w1 t w2 r w3 :
  texts_miss needle before (world st) w1 →
  elem_text button w1 = (Returns t, w2) →
  contains needle (lower t) = true →
  elem_click button w2 = (r, w3) →
  let evs := (Call ∘ CText <$> before) ++ [Call (CText button); Call (CClick button)] in
  click_first needle (before ++ button :: rest) st =
  (of_reply r, State w3 (fs st) (out st ++ evs) (driver st)) ∧
  count is_click evs = 1%nat.
Proof.
  intros Hmiss Htext Hhit Hclick evs. split.
  - subst evs. revert st Hmiss.
    induction before as [|b before IH]; intros st Hmiss.
    + inversion Hmiss; subst. simpl. rewrite bind_run.
      unfold text, browser. rewrite Htext. simpl. rewrite Hhit.
      unfold click, browser. simpl. rewrite Hclick. by rewrite <- !app_assoc.
    + inversion Hmiss as [|? ? ? t0 w0 ? Ht0 Hno Hrest]; subst.
      simpl. rewrite bind_run. unfold text, browser. rewrite Ht0. simpl.
      rewrite Hno. rewrite IH by exact Hrest. simpl. by rewrite <- !app_assoc.
  - subst evs. rewrite count_app, count_texts by done. done.
Qed.

(** X9.  The port loop of [configure_smtp] looks for the first text input
    whose value is 25, 587 or 465.  When there is none it writes nothing,
    prints nothing and returns normally: the port is silently left as it
    is.  When there is one, only that input is cleared and gets the
    configured port, typed as text; the inputs after it are not even read.
    When the configuration has no port, the input has been cleared by the
    time KeyError is raised. *)
Theorem port_loop_fills_first_default_port smtp (before : list elem) st w1 :
  attrs_miss "value" is_default_port before (world st) w1 →
  let reads := (λ field, Call (CGetAttribute field "value")) <$> before in
  port_loop smtp before st =
    (Ret tt, State w1 (fs st) (out st ++ reads) (driver st)) ∧
  ∀ field rest value w2 w3,
    elem_get_attribute field "value" w1 = (Returns value, w2) →
    is_default_port value = true →
    elem_clear field w2 = (Returns tt, w3) →
    let found := reads ++ [Call (CGetAttribute field "value"); Call (CClear field)] in
    (∀ port w4,
       smtp !! "port" = Some port →
       elem_send_keys field (VStr (py_str port)) w3 = (Returns tt, w4) →
       port_loop smtp (before ++ field :: rest) st =
       (Ret tt,
        State w4 (fs st)
          (out st ++ found ++ [Call (CSendKeys field (VStr (py_str port)));
                               Print ("  [OK] Port: " +:+ py_str port)])
          (driver st))) ∧
    (smtp !! "port" = None →
     port_loop smtp (before ++ field :: rest) st =
     (Raise (Exn KeyError "'port'"),
      State w3 (fs st) (out st ++ found) (driver st))).
Proof.
  intros Hmiss reads. subst reads. revert st Hmiss.
  induction before as [|f before IH]; intros st Hmiss.
  - inversion Hmiss; subst. split.
    + simpl. rewrite app_nil_r. by destruct st.
    + intros field rest value w2 w3 Hget Hhit Hclear found. subst found.
      unfold is_default_port in Hhit. split.
      * intros port w4 Hport Hsend. simpl. rewrite bind_run.
        unfold get_attribute, browser. rewrite Hget. simpl. rewrite Hhit.
        rewrite bind_run. unfold clear, browser. simpl. rewrite Hclear. simpl.
        rewrite bind_run. unfold getitem. rewrite Hport. simpl.
        rewrite bind_run. unfold send_keys, browser. simpl. rewrite Hsend.
        exec. unfold print, emit. simpl. by rewrite <- !app_assoc.
      * intros Hport. simpl. rewrite bind_run.
        unfold get_attribute, browser. rewrite Hget. simpl. rewrite Hhit.
        rewrite bind_run. unfold clear, browser. simpl. rewrite Hclear. simpl.
        rewrite bind_run. unfold getitem. rewrite Hport. simpl.
        by rewrite <- !app_assoc.
  - inversion Hmiss as [|? ? ? v0 w0 ? Hget0 Hno Hrest]; subst.
    unfold is_default_port in Hno.
    assert (Hstep : ∀ fields,
      port_loop smtp (f :: fields) st =
      port_loop smtp fields
        (State w0 (fs st) (out st ++ [Call (CGetAttribute f "value")]) (driver st))).
    { intros fields. simpl. rewrite bind_run.
      unfold get_attribute, browser. rewrite Hget0. simpl. by rewrite Hno. }
    destruct (IH (State w0 (fs st) (out st ++ [Call (CGetAttribute f "value")])
                    (driver st)) Hrest) as (IHnone & IHhit).
    split.
    + rewrite Hstep, IHnone. simpl. by rewrite <- !app_assoc.
    + intros field rest value w2 w3 Hget Hhit Hclear found. subst found.
      destruct (IHhit field rest value w2 w3 Hget Hhit Hclear) as (IH1 & IH2).
      split.
      * intros port w4 Hport Hsend. rewrite <- app_comm_cons, Hstep.
        rewrite (IH1 port w4 Hport Hsend). simpl. by rewrite <- !app_assoc.
      * intros Hport. rewrite <- app_comm_cons, Hstep.
        rewrite (IH2 Hport). simpl. by rewrite <- !app_assoc.
Qed.

(** X10.  The userid loop of [configure_smtp] looks for the first text
    input whose placeholder contains "@".  When there is none (an input
    without placeholder does not count) it writes nothing and returns
    normally.  When there is one, only that input is cleared and gets the
    device userid; the inputs after it are not read. *)
Theorem userid_loop_fills_first_address_field creds (before : list elem) st w1 :
  attrs_miss "placeholder" is_userid_placeholder before (world st) w1 →
  let reads := (λ field, Call (CGetAttribute field "placeholder")) <$> before in
  userid_loop creds before st =
    (Ret tt, State w1 (fs st) (out st ++ reads) (driver st)) ∧
  ∀ field rest placeholder userid w2 w3 w4,
    elem_get_attribute field "placeholder" w1 = (Returns placeholder, w2) →
    is_userid_placeholder placeholder = true →
    elem_clear field w2 = (Returns tt, w3) →
    creds !! "userid" = Some userid →
    elem_send_keys field userid w3 = (Returns tt, w4) →
    userid_loop creds (before ++ field :: rest) st =
    (Ret tt,
     State w4 (fs st)
       (out st ++ reads
        ++ [Call (CGetAttribute field "placeholder"); Call (CClear field);
            Call (CSendKeys field userid);
            Print ("  [OK] Device Userid: " +:+ py_str userid)])
       (driver st)).
Proof.
  intros Hmiss reads. subst reads. revert st Hmiss.
  induction before as [|f before IH]; intros st Hmiss.
  - inversion Hmiss; subst. split.
    + simpl. rewrite app_nil_r. by destruct st.
    + intros field rest placeholder userid w2 w3 w4 Hget Hhit Hclear Hkey Hsend.
      unfold is_userid_placeholder in Hhit.
      simpl. rewrite bind_run.
      unfold get_attribute, browser. rewrite Hget. simpl. rewrite Hhit.
      rewrite bind_run. unfold clear, browser. simpl. rewrite Hclear. simpl.
      rewrite bind_run. unfold getitem. rewrite Hkey. simpl.
      rewrite bind_run. unfold send_keys, browser. simpl. rewrite Hsend.
      exec. unfold print, emit. simpl. by rewrite <- !app_assoc.
  - inversion Hmiss as [|? ? ? v0 w0 ? Hget0 Hno Hrest]; subst.
    unfold is_userid_placeholder in Hno.
    assert (Hstep : ∀ fields,
      userid_loop creds (f :: fields) st =
      userid_loop creds fields
        (State w0 (fs st) (out st ++ [Call (CGetAttribute f "placeholder")])
           (driver st))).
    { intros fields. simpl. rewrite bind_run.
      unfold get_attribute, browser. rewrite Hget0. simpl. by rewrite Hno. }
    destruct (IH (State w0 (fs st)
                    (out st ++ [Call (CGetAttribute f "placeholder")])
                    (driver st)) Hrest) as (IHnone & IHhit).
    split.
    + rewrite Hstep, IHnone. simpl. by rewrite <- !app_assoc.
    + intros field rest placeholder userid w2 w3 w4 Hget Hhit Hclear Hkey Hsend.
      rewrite <- app_comm_cons, Hstep.
      rewrite (IHhit field rest placeholder userid w2 w3 w4 Hget Hhit Hclear
                 Hkey Hsend).
      simpl. by rewrite <- !app_assoc.
Qed.

(** ** The dropdowns and the sections of the configuration *)

(** X11.  [configure_smtp] sets the dropdowns by position.  With no
    [select] on the page nothing is selected and nothing is reported; the
    first one gets [use_ssl]; the second one, if there is one, gets
    [auth_method]; further ones are left alone. *)
Theorem fill_dropdowns_by_position smtp st d selects w1 :
  driver st = Some d →
  find_elements d (CSS_SELECTOR, "select") (world st) = (Returns selects, w1) →
  let found := Call (CFindElements d (CSS_SELECTOR, "select")) in
  (selects = [] →
   fill_dropdowns smtp st =
   (Ret tt, State w1 (fs st) (out st ++ [found]) (driver st))) ∧
  ∀ ssl rest use_ssl w2 w3,
    selects = ssl :: rest →
    smtp !! "use_ssl" = Some use_ssl →
    select_new ssl w1 = (Returns tt, w2) →
    select_by_value ssl use_ssl w2 = (Returns tt, w3) →
    let first :=
      [found; Call (CSelect ssl); Call (CSelectByValue ssl use_ssl);
       Print ("  [OK] SSL/TLS: " +:+ py_str use_ssl)] in
    (rest = [] →
     fill_dropdowns smtp st =
     (Ret tt, State w3 (fs st) (out st ++ first) (driver st))) ∧
    ∀ auth others auth_method w4 w5,
      rest = auth :: others →
      smtp !! "auth_method" = Some auth_method →
      select_new auth w3 = (Returns tt, w4) →
      select_by_value auth auth_method w4 = (Returns tt, w5) →
      fill_dropdowns smtp st =
      (Ret tt,
       State w5 (fs st)
         (out st ++ first
          ++ [Call (CSelect auth); Call (CSelectByValue auth auth_method);
              Print ("  [OK] Auth Method: " +:+ py_str auth_method)])
         (driver st)).
Proof.
  intros Hd Hfind found.
  assert (Hstart : ∀ k : list elem → M unit,
    (d ← self_driver "find_elements";
     ssl_selects ← find_all d (CSS_SELECTOR, "select");
     k ssl_selects) st =
    k selects (State w1 (fs st) (out st ++ [found]) (driver st))).
  { intros k. rewrite bind_run. unfold self_driver at 1. rewrite Hd.
    rewrite bind_run. unfold find_all, browser at 1. rewrite Hfind. simpl.
    by rewrite ?Hd. }
  split.
  - intros ->. unfold fill_dropdowns. rewrite Hstart. by exec.
  - intros ssl rest use_ssl w2 w3 -> Hssl Hnew Hsel first.
    assert (Hfirst : ∀ k : M unit,
      (match (ssl :: rest) !! 0%nat with
       | Some ssl_select =>
           Select ssl_select;;
           use_ssl ← getitem smtp "use_ssl";
           select_value ssl_select use_ssl;;
           use_ssl ← getitem smtp "use_ssl";
           print ("  [OK] SSL/TLS: " +:+ py_str use_ssl)
       | None => mret tt
       end;; k) (State w1 (fs st) (out st ++ [found]) (driver st)) =
      k (State w3 (fs st) (out st ++ first) (driver st))).
    { intros k. simpl. rewrite bind_run.
      unfold Select, select_value, browser, getitem. rewrite Hssl. exec.
      rewrite Hnew. exec. rewrite Hsel. exec.
      subst first. by rewrite <- !app_assoc. }
    split.
    + intros ->. unfold fill_dropdowns. rewrite Hstart, Hfirst. by exec.
    + intros auth others auth_method w4 w5 -> Hauth Hnew2 Hsel2.
      unfold fill_dropdowns. rewrite Hstart, Hfirst. simpl.
      unfold Select, select_value, browser, getitem. rewrite Hauth. exec.
      rewrite Hnew2. exec. rewrite Hsel2. exec.
      unfold print, emit. simpl. by rewrite <- !app_assoc.
Qed.

(** X12.  [configure_smtp] reads both sections of the configuration before
    it touches the form: when [smtp] or [credentials] is missing it raises
    KeyError for that section after the error report, and the only call it
    has made to the browser is the error screenshot. *)
Theorem configure_smtp_missing_section config st d b w2 :
  driver st = Some d →
  save_screenshot d (screenshot_path "error_config_failed" (world st)) (world st)
    = (Returns b, w2) →
  let aborted (section : string) :=
    configure_smtp config st =
    (Raise (Exn KeyError ("'" +:+ section +:+ "'")),
     State w2 (fs st)
       (out st
        ++ [Enter "configure_smtp"; Print "[INFO] Configuring SMTP settings...";
            Print ("[ERROR] Configuration failed: " +:+ "'" +:+ section +:+ "'")]
        ++ screenshot_events d "error_config_failed" (world st))
       (driver st)) in
  (config !! "smtp" = None → aborted "smtp") ∧
  (is_Some (config !! "smtp") → config !! "credentials" = None →
   aborted "credentials").
Proof.
  intros Hd Hshot aborted. subst aborted. split.
  - intros Hs. unfold configure_smtp, try_except.
    rewrite bind_run. simpl. rewrite bind_run. simpl. rewrite bind_run.
    unfold getitem at 1. rewrite Hs. simpl.
    rewrite bind_run. simpl. rewrite bind_run.
    erewrite take_screenshot_ok by (simpl; eassumption).
    simpl. by rewrite <- !app_assoc.
  - intros [smtp Hs] Hc. unfold configure_smtp, try_except.
    rewrite bind_run. simpl. rewrite bind_run. simpl. rewrite bind_run.
    unfold getitem at 1. rewrite Hs. simpl.
    rewrite bind_run. unfold getitem at 1. rewrite Hc. simpl.
    rewrite bind_run. simpl. rewrite bind_run.
    erewrite take_screenshot_ok by (simpl; eassumption).
    simpl. by rewrite <- !app_assoc.
Qed.

(** ** Logging in *)

(** X13.  On a page where every lookup and action succeeds, [login] opens
    the configured URL, waits for a text input, types the user name into
    the first text input and the password into the first password input,
    each cleared first, then clicks the first button, waits two seconds
    and takes the screenshot "01_logged_in". *)
Theorem login_fills_credentials config target url username password st d
    w1 waited w2 user_field w3 w4 w5 pass_field w6 w7 w8 button w9 w10 b w11 :
  driver st = Some d →
  config !! "target" = Some target →
  target !! "url" = Some url →
  target !! "username" = Some username →
  target !! "password" = Some password →
  driver_get d url (world st) = (Returns tt, w1) →
  wait_presence d 10 (CSS_SELECTOR, "input[type='text']") w1 = (Returns waited, w2) →
  find_element d (CSS_SELECTOR, "input[type='text']") w2 = (Returns user_field, w3) →
  elem_clear user_field w3 = (Returns tt, w4) →
  elem_send_keys user_field username w4 = (Returns tt, w5) →
  find_element d (CSS_SELECTOR, "input[type='password']") w5 = (Returns pass_field, w6) →
  elem_clear pass_field w6 = (Returns tt, w7) →
  elem_send_keys pass_field password w7 = (Returns tt, w8) →
  find_element d (CSS_SELECTOR, "button") w8 = (Returns button, w9) →
  elem_click button w9 = (Returns tt, w10) →
  save_screenshot d (screenshot_path "01_logged_in" (time_sleep 2 w10))
    (time_sleep 2 w10) = (Returns b, w11) →
  login config st =
  (Ret tt,
   State w11 (fs st)
     (out st
      ++ [Enter "login";
          Print ("[INFO] Navigating to " +:+ py_str url);
          Call (CGet d url);
          Call (CWaitPresence d 10 (CSS_SELECTOR, "input[type='text']"));
          Call (CFindElement d (CSS_SELECTOR, "input[type='text']"));
          Call (CClear user_field);
          Call (CSendKeys user_field username);
          Call (CFindElement d (CSS_SELECTOR, "input[type='password']"));
          Call (CClear pass_field);
          Call (CSendKeys pass_field password);
          Call (CFindElement d (CSS_SELECTOR, "button"));
          Call (CClick button);
          Sleep 2;
          Print "[SUCCESS] Logged in successfully"]
      ++ screenshot_events d "01_logged_in" (time_sleep 2 w10))
     (driver st)).
Proof.
  intros Hd Ht Hurl Huser Hpass Hget Hwait Hf1 Hc1 Hs1 Hf2 Hc2 Hs2 Hf3 Hclick Hshot.
  unfold login, try_except.
  unfold get, until_present, find, clear, send_keys, click, browser, getitem,
    self_driver.
  repeat first
    [ progress exec
    | rewrite Hd | rewrite Ht | rewrite Hurl | rewrite Huser | rewrite Hpass
    | rewrite Hget | rewrite Hwait | rewrite Hf1 | rewrite Hc1 | rewrite Hs1
    | rewrite Hf2 | rewrite Hc2 | rewrite Hs2 | rewrite Hf3 | rewrite Hclick ].
  erewrite take_screenshot_ok by (simpl; first [eassumption|reflexivity]).
  simpl. unfold screenshot_events. by rewrite <- !app_assoc.
Qed.

(** X14.  Without a target section, or without a URL in it, [login] does
    not reach the printer: it reports the missing key, takes the error
    screenshot and raises KeyError; the screenshot is its only call to the
    browser. *)
Theorem login_missing_target config st d b w2 :
  driver st = Some d →
  save_screenshot d (screenshot_path "error_login_failed" (world st)) (world st)
    = (Returns b, w2) →
  let aborted (key : string) :=
    login config st =
    (Raise (Exn KeyError ("'" +:+ key +:+ "'")),
     State w2 (fs st)
       (out st
        ++ [Enter "login";
            Print ("[ERROR] Login failed: " +:+ "'" +:+ key +:+ "'")]
        ++ screenshot_events d "error_login_failed" (world st))
       (driver st)) in
  (config !! "target" = None → aborted "target") ∧
  (∀ target, config !! "target" = Some target → target !! "url" = None →
   aborted "url").
Proof.
  intros Hd Hshot aborted. subst aborted. split.
  - intros Ht. unfold login, try_except.
    rewrite bind_run. simpl. rewrite bind_run.
    unfold getitem at 1. rewrite Ht. simpl.
    rewrite bind_run. simpl. rewrite bind_run.
    erewrite take_screenshot_ok by (simpl; eassumption).
    simpl. by rewrite <- !app_assoc.
  - intros target Ht Hurl. unfold login, try_except.
    rewrite bind_run. simpl. rewrite bind_run.
    unfold getitem at 1. rewrite Ht. simpl.
    rewrite bind_run. unfold getitem at 1. rewrite Hurl. simpl.
    rewrite bind_run. simpl. rewrite bind_run.
    erewrite take_screenshot_ok by (simpl; eassumption).
    simpl. by rewrite <- !app_assoc.
Qed.

(** ** Before a session exists *)

(** X15.  Called on a configurator without a session, the steps make no
    call to the browser: [_take_screenshot] does nothing,
    [test_connection] reports the AttributeError and returns [False], and
    [submit_configuration] reports it and raises it. *)
Theorem steps_without_session st :
  driver st = None →
  let missing :=
    "'NoneType' object has no attribute '" +:+ "find_elements" +:+ "'" in
  (∀ name, _take_screenshot name st = (Ret tt, st)) ∧
  test_connection st =
  (Ret (Some false),
   State (world st) (fs st)
     (out st ++ [Enter "test_connection";
                 Print "[INFO] Testing SMTP connection...";
                 Print ("[ERROR] Test connection failed: " +:+ missing)])
     None) ∧
  submit_configuration st =
  (Raise (Exn AttributeError missing),
   State (world st) (fs st)
     (out st ++ [Enter "submit_configuration";
                 Print "[INFO] Submitting configuration...";
                 Print ("[ERROR] Submit failed: " +:+ missing)])
     None).
Proof.
  intros Hd missing. split; [|split].
  - intros name. unfold _take_screenshot. by rewrite Hd.
  - unfold test_connection, try_except, test_connection_body, read_test_results.
    repeat first
      [progress exec | rewrite Hd | progress unfold self_driver, _take_screenshot].
    by rewrite <- !app_assoc.
  - unfold submit_configuration, try_except.
    repeat first
      [progress exec | rewrite Hd | progress unfold self_driver, _take_screenshot].
    by rewrite <- !app_assoc.
Qed.

(** [__init__] ends the process with status 1 only. *)
Lemma init_exit_code config_path st c :
  (__init__ config_path st).1 = SystemExit c → c = 1.
Proof.
  unfold __init__, _load_config, try_except_on. rewrite !bind_run.
  unfold py_open. destruct (fs st !! config_path) as [[content|]|]; simpl.
  - unfold lift. destruct (yaml_safe_load content) as [config|e]; simpl.
    + unfold mkdir_exist_ok. exec.
      by destruct (fs st !! screenshots_dir) as [[]|].
    + destruct (is_FileNotFoundError e); [|done]. exec. congruence.
  - done.
  - exec. congruence.
Qed.

(** X1.  The configurator ends the process ([SystemExit]) with status 1
    only.  [run] does so only because [setup_driver] did: login, form
    filling, test, submission, the [except] block and the closing of the
    browser return or raise.  So once the arguments are parsed, creating
    the configurator for a path and running it (lines 316-317) leaves the
    exit status 0 or 1, whatever the flags, the files and the browser. *)
Theorem configurator_exits_with_status_1_only config_path config test_only
    skip_test st :
  (∀ c, (__init__ config_path st).1 = SystemExit c → c = 1) ∧
  (∀ c, (run config test_only skip_test st).1 = SystemExit c →
        c = 1 ∧ (setup_driver config (after_banner st)).1 = SystemExit 1) ∧
  let status :=
    exit_status
      ((configurator ← __init__ config_path;
        run configurator test_only skip_test) st).1 in
  status = 0 ∨ status = 1.
Proof.
  split; [intros c; apply init_exit_code|].
  split; [intros c; apply run_exit_is_setup_exit|].
  cbv zeta. rewrite bind_run.
  pose proof (init_exit_code config_path st) as Hinit.
  destruct (__init__ config_path st) as [[cfg|e|c] st1]; simpl in *.
  - pose proof (run_exit_is_setup_exit cfg test_only skip_test st1) as Hrun.
    destruct (run cfg test_only skip_test st1)
      as [[[]|e|c] st2]; simpl in *; [by left|by right|].
    right. by destruct (Hrun c eq_refl).
  - by right.
  - right. by apply Hinit.
Qed.

(** ** Creating the configurator *)

(** X16.  With a configuration file that parses, [__init__] creates the
    directory of the screenshots unless it exists, fails with
    FileExistsError when a file has that name, and changes nothing else.
    When it succeeds the configurator has the parsed configuration and no
    session, and creating it a second time changes nothing more. *)
Theorem init_prepares_configurator config_path st content config :
  fs st !! config_path = Some (FFile content) →
  yaml_safe_load content = Returns config →
  match fs st !! screenshots_dir with
  | Some (FFile _) =>
      __init__ config_path st =
      (Raise (Exn FileExistsError
                ("[Errno 17] File exists: '" +:+ screenshots_dir +:+ "'")),
       State (world st) (fs st) (out st) None)
  | Some FDir =>
      __init__ config_path st =
      (Ret config, State (world st) (fs st) (out st) None)
  | None =>
      __init__ config_path st =
      (Ret config,
       State (world st) (<[screenshots_dir := FDir]> (fs st)) (out st) None)
  end ∧
  ∀ config' st',
    __init__ config_path st = (Ret config', st') →
    config' = config ∧ driver st' = None ∧
    fs st' !! screenshots_dir = Some FDir ∧
    (∀ path, path ≠ screenshots_dir → fs st' !! path = fs st !! path) ∧
    __init__ config_path st' = (Ret config, st').
Proof.
  intros Hfile Hyaml.
  assert (Hload : ∀ st0, fs st0 !! config_path = Some (FFile content) →
            _load_config config_path st0 = (Ret config, st0)).
  { intros st0 H0. unfold _load_config, try_except_on. rewrite bind_run.
    unfold py_open. rewrite H0. unfold lift. by rewrite Hyaml. }
  assert (Hinit : ∀ st0, fs st0 !! config_path = Some (FFile content) →
            __init__ config_path st0 =
            match mkdir_exist_ok screenshots_dir
                    (State (world st0) (fs st0) (out st0) None) with
            | (Ret _, st1) => (Ret config, st1)
            | (Raise e, st1) => (Raise e, st1)
            | (SystemExit c, st1) => (SystemExit c, st1)
            end).
  { intros st0 H0. unfold __init__. rewrite bind_run, (Hload st0 H0).
    rewrite bind_run. simpl. rewrite bind_run.
    by destruct (mkdir_exist_ok _ _) as [[[]|?|?] ?]. }
  split.
  - destruct (fs st !! screenshots_dir) as [[]|] eqn:Hdir;
      rewrite (Hinit st Hfile); unfold mkdir_exist_ok; simpl; by rewrite Hdir.
  - intros config' st'. rewrite (Hinit st Hfile). unfold mkdir_exist_ok. simpl.
    destruct (fs st !! screenshots_dir) as [[]|] eqn:Hdir; simpl; [done| |].
    + intros [= <- <-]. simpl. repeat split; [done|].
      rewrite Hinit by exact Hfile.
      unfold mkdir_exist_ok. simpl. by rewrite Hdir.
    + intros [= <- <-]. simpl.
      assert (Hne : config_path ≠ screenshots_dir) by congruence.
      repeat split.
      * by rewrite lookup_insert_eq.
      * intros path Hpath. by rewrite lookup_insert_ne.
      * rewrite Hinit by (simpl; by rewrite lookup_insert_ne).
        unfold mkdir_exist_ok. simpl. by rewrite lookup_insert_eq.
Qed.

(** X17.  Only a missing file makes [_load_config] end the process.  A
    path that names a directory and an error of the YAML parser raise out
    of it, with nothing printed; a file that parses is returned as it is
    parsed. *)
Theorem load_config_other_outcomes config_path st :
  (fs st !! config_path = Some FDir →
   _load_config config_path st =
   (Raise (Exn IsADirectoryError
             ("[Errno 21] Is a directory: '" +:+ config_path +:+ "'")), st)) ∧
  ∀ content,
    fs st !! config_path = Some (FFile content) →
    match yaml_safe_load content with
    | Returns config => _load_config config_path st = (Ret config, st)
    | Raises e =>
        is_FileNotFoundError e = false →
        _load_config config_path st = (Raise e, st)
    end.
Proof.
  split.
  - intros Hdir. unfold _load_config, try_except_on. rewrite bind_run.
    unfold py_open. by rewrite Hdir.
  - intros content Hfile. unfold _load_config, try_except_on. rewrite bind_run.
    unfold py_open. rewrite Hfile. unfold lift.
    destruct (yaml_safe_load content) as [config|e]; simpl; [done|].
    by intros ->.
Qed.

End Configurator.

(** ** The properties on concrete pages *)

#[local] Existing Instance demo_platform.

(** C6 on an empty file system. *)
Lemma load_config_missing_file_witness :
  (main {| args_config := "config.yaml"; args_test_only := false;
           args_skip_test := false |}
     (State demo_page ∅ [] None)).1 = SystemExit 1.
Proof.
  destruct (load_config_missing_file "config.yaml" (State demo_page ∅ [] None))
    as (_ & _ & Hmain); [reflexivity|].
  destruct (Hmain {| args_config := "config.yaml"; args_test_only := false;
                     args_skip_test := false |} eq_refl) as [-> _].
  reflexivity.
Defined.

(** Evaluate [t] and keep the result as an equation. *)
Ltac evaluated t H :=
  let v := eval vm_compute in t in
  assert (H : t = v) by (vm_compute; reflexivity).

(** C3 on three pages: the test passes, fails, says nothing. *)
Lemma test_connection_classifies_witness :
  (test_connection (State demo_page ∅ [] (Some tt))).1 = Ret (Some true) ∧
  (test_connection (State demo_page_failed ∅ [] (Some tt))).1 = Ret (Some false) ∧
  (test_connection (State demo_page_no_submit ∅ [] (Some tt))).1 = Ret None.
Proof.
  split; [|split].
  - evaluated (read_test_results (State demo_page ∅ [] (Some tt))) Hread.
    destruct (test_connection_classifies _ _ _ tt Hread eq_refl) as (Hpass & _).
    erewrite Hpass; [reflexivity| |reflexivity].
    left. apply contains_spec. reflexivity.
  - evaluated (read_test_results (State demo_page_failed ∅ [] (Some tt))) Hread.
    destruct (test_connection_classifies _ _ _ tt Hread eq_refl) as (_ & Hfail & _).
    erewrite Hfail; [reflexivity| | |reflexivity].
    + intros [H|H]; apply contains_spec in H; discriminate H.
    + left. apply contains_spec. reflexivity.
  - evaluated (read_test_results (State demo_page_no_submit ∅ [] (Some tt))) Hread.
    destruct (test_connection_classifies _ _ _ tt Hread eq_refl) as (_ & _ & Hnone).
    erewrite Hnone; [reflexivity| | |reflexivity].
    + intros [H|H]; apply contains_spec in H; discriminate H.
    + intros [H|H]; [|apply substring_lower in H];
        apply contains_spec in H; discriminate H.
Defined.

(** C9 on a page that reports a success and mentions an error. *)
Lemma test_connection_success_first_witness :
  (test_connection (State demo_page_mixed ∅ [] (Some tt))).1 = Ret (Some true).
Proof.
  evaluated (read_test_results (State demo_page_mixed ∅ [] (Some tt))) Hread.
  erewrite (test_connection_success_first _ _ _ tt _ _ Hread eq_refl);
    [reflexivity| | |reflexivity].
  - right. apply contains_spec. reflexivity.
  - right. apply substring_lower, contains_spec. reflexivity.
Defined.

(** C7 does not hold when the browser has died: the lookup of the buttons
    raises inside [test_connection], the error screenshot raises in turn,
    and that exception leaves [test_connection]. *)
Lemma test_connection_propagates_counterexample :
  (test_connection_body (State demo_dead ∅ [] (Some tt))).1
    = Raise (Exn WebDriverException "chrome not reachable") ∧
  (test_connection (State demo_dead ∅ [] (Some tt))).1
    = Raise (Exn WebDriverException "chrome not reachable") ∧
  (test_connection (State demo_dead ∅ [] (Some tt))).1 ≠ Ret (Some false).
Proof. vm_compute. repeat split. discriminate. Qed.

(** C7 (amended) when only the lookups fail. *)
Lemma test_connection_catches_witness :
  (test_connection (State demo_lookups_broken ∅ [] (Some tt))).1 = Ret (Some false).
Proof.
  evaluated (test_connection_body (State demo_lookups_broken ∅ [] (Some tt))) Hbody.
  pose proof (test_connection_catches _ _ _ Hbody) as H.
  cbv zeta in H. simpl in H. rewrite H. reflexivity.
Defined.

(** C10 on a page whose buttons are "Test Connection" and "Apply". *)
Lemma submit_without_button_witness :
  (submit_configuration (State demo_page_no_submit ∅ [] (Some tt))).1 = Ret tt.
Proof.
  destruct (submit_without_button (State demo_page_no_submit ∅ [] (Some tt)) tt
              [DButton 0; DButton 1] demo_page_no_submit demo_page_no_submit
              true demo_page_no_submit) as [-> _];
    [reflexivity|by vm_compute| |by vm_compute|reflexivity].
  eapply texts_miss_cons; [by vm_compute..|].
  eapply texts_miss_cons; [by vm_compute..|].
  apply texts_miss_nil.
Defined.

(** C5 on a page with two password inputs: the second one is filled. *)
Lemma device_password_goes_to_last_field_witness :
  fill_device_password demo_creds (State demo_page ∅ [] (Some tt)) =
  (Ret tt,
   State demo_page ∅
     [Call (CFindElements tt (CSS_SELECTOR, "input[type='password']"));
      Call (CClear (DInput "input[type='password']" 1));
      Call (CSendKeys (DInput "input[type='password']" 1) (VStr "secret"));
      Print "  [OK] Device Password: ******"]
     (Some tt)).
Proof.
  destruct (device_password_goes_to_last_field demo_creds
              (State demo_page ∅ [] (Some tt)) tt
              [DInput "input[type='password']" 0; DInput "input[type='password']" 1]
              demo_page) as (_ & _ & Htwo & _);
    [reflexivity|by vm_compute|].
  rewrite (Htwo _ _ eq_refl (VStr "secret") demo_page demo_page);
    by vm_compute.
Defined.

(** C1 on three pages.  The test passes: the form is submitted once.  The
    test fails, or says nothing: nothing is submitted and the run says
    so. *)
Lemma run_default_submits_iff_test_passes_witness :
  grows_by (is_enter "submit_configuration") 1
    (State demo_page ∅ [] None)
    (run demo_config false false (State demo_page ∅ [] None)).2 ∧
  (grows_by (is_enter "submit_configuration") 0
     (State demo_page_failed ∅ [] None)
     (run demo_config false false (State demo_page_failed ∅ [] None)).2 ∧
   In (Print "[WARNING] Configuration filled but NOT submitted due to test failure")
     (out (run demo_config false false (State demo_page_failed ∅ [] None)).2)) ∧
  (grows_by (is_enter "submit_configuration") 0
     (State demo_page_no_submit ∅ [] None)
     (run demo_config false false (State demo_page_no_submit ∅ [] None)).2 ∧
   In (Print "[WARNING] Configuration filled but NOT submitted due to test failure")
     (out (run demo_config false false (State demo_page_no_submit ∅ [] None)).2)).
Proof.
  split; [|split].
  - destruct (run_default_submits_iff_test_passes demo_config
                (State demo_page ∅ [] None)) as (_ & Hpass & _).
    evaluated (run_prelude demo_config (State demo_page ∅ [] None)) Hpre.
    match type of Hpre with _ = (_, ?st1) =>
      evaluated (test_connection st1) Htest end.
    exact (Hpass _ _ Hpre Htest).
  - destruct (run_default_submits_iff_test_passes demo_config
                (State demo_page_failed ∅ [] None)) as (_ & _ & Hfail).
    evaluated (run_prelude demo_config (State demo_page_failed ∅ [] None)) Hpre.
    match type of Hpre with _ = (_, ?st1) =>
      evaluated (test_connection st1) Htest end.
    destruct (Hfail _ _ _ Hpre Htest (or_introl eq_refl)) as (Hcount & after & ->).
    split; [exact Hcount|]. apply in_or_app. right. simpl. auto.
  - destruct (run_default_submits_iff_test_passes demo_config
                (State demo_page_no_submit ∅ [] None)) as (_ & _ & Hfail).
    evaluated (run_prelude demo_config (State demo_page_no_submit ∅ [] None)) Hpre.
    match type of Hpre with _ = (_, ?st1) =>
      evaluated (test_connection st1) Htest end.
    destruct (Hfail _ _ _ Hpre Htest (or_intror eq_refl)) as (Hcount & after & ->).
    split; [exact Hcount|]. apply in_or_app. right. simpl. auto.
Defined.

(** C4 on a page where everything works. *)
Lemma run_skip_test_submits_once_witness :
  grows_by (is_enter "submit_configuration") 1
    (State demo_page ∅ [] None)
    (run demo_config false true (State demo_page ∅ [] None)).2.
Proof.
  destruct (run_skip_test_submits_once demo_config (State demo_page ∅ [] None))
    as (_ & _ & Hmode).
  evaluated (run_prelude demo_config (State demo_page ∅ [] None)) Hpre.
  exact (proj1 (Hmode _ Hpre)).
Defined.

(** The whole run on a page where everything works: the test passes, the
    form is submitted once and the browser is closed once. *)
Example run_on_demo_page :
  let st' := (run demo_config false false (State demo_page ∅ [] None)).2 in
  (run demo_config false false (State demo_page ∅ [] None)).1 = Ret tt ∧
  count is_quit (out st') = 1%nat ∧
  count (is_enter "submit_configuration") (out st') = 1%nat ∧
  count is_click (out st') = 3%nat.
Proof. by vm_compute. Qed.

(** The same run when the browser cannot be started: the process exits
    with status 1 and there is no session to close. *)
Example run_without_browser :
  let st' := (run demo_config false false (State demo_dead ∅ [] None)).2 in
  (run demo_config false false (State demo_dead ∅ [] None)).1 = SystemExit 1 ∧
  driver st' = None ∧
  count is_quit (out st') = 0%nat.
Proof. by vm_compute. Qed.

(** ** The further properties on concrete pages *)

(** X1 when Chrome cannot be started: [run] exits with status 1, as
    [setup_driver] did. *)
Lemma configurator_exits_with_status_1_only_witness :
  (setup_driver demo_config (after_banner (State demo_dead ∅ [] None))).1
    = SystemExit 1.
Proof.
  destruct (configurator_exits_with_status_1_only "config.yaml" demo_config
              false false (State demo_dead ∅ [] None)) as (_ & Hexit & _).
  destruct (Hexit 1) as [_ Hsetup]; [by vm_compute|]. exact Hsetup.
Defined.

(** X2 on a page whose lookups fail: [login] raises and has printed its
    error line. *)
Lemma step_failures_are_reported_witness :
  ∃ e before more,
    out (login demo_config (State demo_lookups_broken ∅ [] (Some tt))).2 =
    [] ++ before ++ Print ("[ERROR] Login failed: " +:+ exn_msg e) :: more.
Proof.
  evaluated (login demo_config (State demo_lookups_broken ∅ [] (Some tt))) Hrun.
  match type of Hrun with _ = (Raise ?e', ?st') =>
    destruct (step_failures_are_reported demo_config
                (State demo_lookups_broken ∅ [] (Some tt)) e' st')
      as (Hlogin & _) end.
  destruct (Hlogin Hrun) as (e & before & more & E & _).
  exists e, before, more. rewrite Hrun. exact E.
Defined.

(** X3 on a browser that starts. *)
Lemma setup_driver_starts_session_witness :
  (setup_driver demo_config (State demo_page ∅ [] None)).1 = Ret tt ∧
  driver (setup_driver demo_config (State demo_page ∅ [] None)).2 = Some tt.
Proof.
  destruct (setup_driver_starts_session demo_config
              {[ "headless" := VBool true; "wait_timeout" := VInt 10 ]}
              (State demo_page ∅ [] None) tt demo_page demo_page) as [-> _];
    [by vm_compute..|].
  by split.
Defined.

(** X4 when Chrome cannot be started. *)
Lemma setup_driver_failure_exits_witness :
  (setup_driver demo_config (State demo_dead ∅ [] None)).1 = SystemExit 1.
Proof.
  destruct (setup_driver_failure_exits demo_config
              {[ "headless" := VBool true; "wait_timeout" := VInt 10 ]}
              (State demo_dead ∅ [] None)) as [Hchrome _]; [by vm_compute|].
  by rewrite (Hchrome (Exn WebDriverException "chrome not reachable") demo_dead).
Defined.

(** X5 with an empty configuration. *)
Lemma run_without_settings_raises_witness :
  (run ∅ false false (State demo_page ∅ [] None)).1
    = Raise (Exn KeyError "'settings'").
Proof.
  by rewrite (run_without_settings_raises ∅ false false
                (State demo_page ∅ [] None)).
Defined.

(** X6 on a page whose lookups fail: [login] raises, [run] returns. *)
Lemma run_failure_returns_normally_witness :
  exit_status (run demo_config false false (State demo_lookups_broken ∅ [] None)).1
    = 0.
Proof.
  eapply proj2.
  eapply (run_failure_returns_normally demo_config false false
            (State demo_lookups_broken ∅ [] None) _ _
            {[ "headless" := VBool true; "wait_timeout" := VInt 10 ]}
            tt true demo_lookups_broken demo_lookups_broken);
    by vm_compute.
Defined.

(** X7 on a page where everything works. *)
Lemma run_calls_nothing_after_quit_witness :
  ∃ before after,
    produces (run demo_config false false) (State demo_page ∅ [] None)
      (before ++ [Sleep 2; Call (CQuit tt)] ++ after) ∧
    (after = [] ∨ after = [Print (nl +:+ "[INFO] Browser closed")]) ∧
    count is_call after = O.
Proof. apply run_calls_nothing_after_quit. by vm_compute. Defined.

(** X8 on the buttons "Test Connection" and "Submit": looking for a submit
    button clicks the second one. *)
Lemma click_first_clicks_first_match_witness :
  click_first "submit" [DButton 0; DButton 1] (State demo_page ∅ [] (Some tt)) =
  (Ret tt,
   State demo_page ∅
     [Call (CText (DButton 0)); Call (CText (DButton 1)); Call (CClick (DButton 1))]
     (Some tt)).
Proof.
  destruct (click_first_clicks_first_match "submit" [DButton 0] (DButton 1) []
              (State demo_page ∅ [] (Some tt)) demo_page "Submit" demo_page
              (Returns tt) demo_page) as [Hrun _]; [|by vm_compute..|exact Hrun].
  eapply texts_miss_cons; [by vm_compute..|]. apply texts_miss_nil.
Defined.

(** X9 on two inputs of which the second holds 25. *)
Lemma port_loop_fills_first_default_port_witness :
  port_loop {[ "port" := VInt 587 ]} [DInput "input" 1; DInput "input" 0]
    (State demo_page ∅ [] (Some tt)) =
  (Ret tt,
   State demo_page ∅
     [Call (CGetAttribute (DInput "input" 1) "value");
      Call (CGetAttribute (DInput "input" 0) "value");
      Call (CClear (DInput "input" 0));
      Call (CSendKeys (DInput "input" 0) (VStr "587"));
      Print "  [OK] Port: 587"]
     (Some tt)).
Proof.
  destruct (port_loop_fills_first_default_port {[ "port" := VInt 587 ]}
              [DInput "input" 1] (State demo_page ∅ [] (Some tt)) demo_page)
    as [_ Hhit].
  { eapply attrs_miss_cons; [by vm_compute..|]. apply attrs_miss_nil. }
  destruct (Hhit (DInput "input" 0) [] (Some "25") demo_page demo_page)
    as [Hport _]; [by vm_compute..|].
  exact (Hport (VInt 587) demo_page eq_refl eq_refl).
Defined.

(** X10 on two inputs of which the second has an address as placeholder. *)
Lemma userid_loop_fills_first_address_field_witness :
  userid_loop demo_creds [DInput "input" 0; DInput "input" 1]
    (State demo_page ∅ [] (Some tt)) =
  (Ret tt,
   State demo_page ∅
     [Call (CGetAttribute (DInput "input" 0) "placeholder");
      Call (CGetAttribute (DInput "input" 1) "placeholder");
      Call (CClear (DInput "input" 1));
      Call (CSendKeys (DInput "input" 1) (VStr "printer@example.com"));
      Print "  [OK] Device Userid: printer@example.com"]
     (Some tt)).
Proof.
  destruct (userid_loop_fills_first_address_field demo_creds
              [DInput "input" 0] (State demo_page ∅ [] (Some tt)) demo_page)
    as [_ Hhit].
  { eapply attrs_miss_cons; [by vm_compute..|]. apply attrs_miss_nil. }
  apply (Hhit (DInput "input" 1) [] (Some "user@example.com")
           (VStr "printer@example.com") demo_page demo_page demo_page);
    by vm_compute.
Defined.

(** X11 on a page with two dropdowns. *)
Lemma fill_dropdowns_by_position_witness :
  fill_dropdowns {[ "use_ssl" := VStr "starttls"; "auth_method" := VStr "login" ]}
    (State demo_page ∅ [] (Some tt)) =
  (Ret tt,
   State demo_page ∅
     [Call (CFindElements tt (CSS_SELECTOR, "select"));
      Call (CSelect (DSelect 0));
      Call (CSelectByValue (DSelect 0) (VStr "starttls"));
      Print "  [OK] SSL/TLS: starttls";
      Call (CSelect (DSelect 1));
      Call (CSelectByValue (DSelect 1) (VStr "login"));
      Print "  [OK] Auth Method: login"]
     (Some tt)).
Proof.
  destruct (fill_dropdowns_by_position
              {[ "use_ssl" := VStr "starttls"; "auth_method" := VStr "login" ]}
              (State demo_page ∅ [] (Some tt)) tt [DSelect 0; DSelect 1] demo_page)
    as [_ Hfirst]; [by vm_compute..|].
  destruct (Hfirst (DSelect 0) [DSelect 1] (VStr "starttls") demo_page demo_page)
    as [_ Hsecond]; [by vm_compute..|].
  apply (Hsecond (DSelect 1) [] (VStr "login") demo_page demo_page);
    by vm_compute.
Defined.

(** X12 with an empty configuration. *)
Lemma configure_smtp_missing_section_witness :
  (configure_smtp ∅ (State demo_page ∅ [] (Some tt))).1
    = Raise (Exn KeyError "'smtp'").
Proof.
  destruct (configure_smtp_missing_section ∅ (State demo_page ∅ [] (Some tt))
              tt true demo_page) as [Hsmtp _]; [by vm_compute..|].
  by rewrite Hsmtp.
Defined.

(** X13 on a page where everything works. *)
Lemma login_fills_credentials_witness :
  (login demo_config (State demo_page ∅ [] (Some tt))).1 = Ret tt.
Proof.
  erewrite (login_fills_credentials demo_config _ _ _ _
              (State demo_page ∅ [] (Some tt)) tt);
    [reflexivity|by vm_compute..].
Defined.

(** X14 with an empty configuration. *)
Lemma login_missing_target_witness :
  (login ∅ (State demo_page ∅ [] (Some tt))).1 = Raise (Exn KeyError "'target'").
Proof.
  destruct (login_missing_target ∅ (State demo_page ∅ [] (Some tt))
              tt true demo_page) as [Htarget _]; [by vm_compute..|].
  by rewrite Htarget.
Defined.

(** X15 on a configurator that never started a browser. *)
Lemma steps_without_session_witness :
  (test_connection (State demo_page ∅ [] None)).1 = Ret (Some false) ∧
  (submit_configuration (State demo_page ∅ [] None)).1
    = Raise (Exn AttributeError "'NoneType' object has no attribute 'find_elements'").
Proof.
  destruct (steps_without_session (State demo_page ∅ [] None) eq_refl)
    as (_ & -> & ->).
  by split.
Defined.

(** X16 on a file system that holds the configuration file only. *)
Lemma init_prepares_configurator_witness :
  __init__ "config.yaml" (State demo_page {[ "config.yaml" := FFile "" ]} [] None) =
  (Ret demo_config,
   State demo_page
     (<[ "screenshots" := FDir ]> {[ "config.yaml" := FFile "" ]}) [] None).
Proof.
  destruct (init_prepares_configurator "config.yaml"
              (State demo_page {[ "config.yaml" := FFile "" ]} [] None)
              "" demo_config) as [Hrun _]; [by vm_compute..|].
  exact Hrun.
Defined.

(** X17 on a path that names a directory. *)
Lemma load_config_other_outcomes_witness :
  (_load_config "config.yaml" (State demo_page {[ "config.yaml" := FDir ]} [] None)).1
    = Raise (Exn IsADirectoryError "[Errno 21] Is a directory: 'config.yaml'").
Proof.
  destruct (load_config_other_outcomes "config.yaml"
              (State demo_page {[ "config.yaml" := FDir ]} [] None)) as [Hdir _].
  by rewrite Hdir.
Defined.
